(** * SafeFactory: deployment of Safe proxies through the proxy factory

    A shallow embedding of
    [packages/safe-core-sdk/src/safeFactory/index.ts].

    The class [SafeFactory] talks to three collaborators that live outside
    the file: the Ethereum adapter, the two contract wrappers the adapter
    hands out, and the [Safe] class.  Every call that crosses that boundary
    is kept as a node of a program tree ([Prog]); an environment answers the
    calls, and running a program against an environment yields the list of
    calls made with their answers, next to the completion of the program.
    Statements such as "fails before any transaction is submitted" are
    statements about that list.

    JavaScript values are modelled as follows.
    - [number]: an integer [Z] (chain ids, thresholds, salts, payments and
      milliseconds are integers well inside the exactly representable range
      of a double); the one fractional number, the result of
      [Math.random()], is a rational [Q], and the product and [Math.floor]
      applied to it are computed exactly.
    - [string]: [string].
    - an optional property [p?: T]: [option T], where [None] is the absent
      (undefined) property.
    - [throw new Error(m)]: the completion [Throws (Error_ m)]. *)

From stdpp Require Import base option list strings gmap.
From Stdlib Require Import ZArith QArith Qround.

Local Open Scope Z_scope.

(** ** Values *)

Definition Address := string.
Definition SafeVersion := string.

(** An ABI is a JSON array; nothing here looks inside one. *)
Definition AbiItem := string.

(** What a [throw] carries.  [Error_ m] is [new Error(m)]; [TypeError p] is
    the engine's error for calling method [p] on [undefined]. *)
Inductive Error :=
| Error_ (message : string)
| TypeError (property : string).

(** How an operation completes. *)
Inductive Completion (A : Type) :=
| Returns (a : A)
| Throws (e : Error).
Arguments Returns {A} a.
Arguments Throws {A} e.

(** ** Interfaces declared in index.ts *)

Record SafeAccountConfig := {
  owners : list Address;
  threshold : Z;
  to : option Address;
  data : option string;
  fallbackHandler : option Address;
  paymentToken : option Address;
  payment : option Z;
  paymentReceiver : option Address
}.

(** The interface declares [saltNonce: number]; the code reads it through
    [?.] and [??], which also accept a missing or null value, so the field
    is optional here and [None] stands for both. *)
Record SafeDeploymentConfig := {
  saltNonce : option Z
}.

(** ** Interfaces declared outside index.ts *)

(** A gas amount is a number or a string of digits. *)
Inductive GasValue :=
| GasNumber (n : Z)
| GasString (s : string).

(** [TransactionOptions] of the types package: the sender override and the
    gas fields. *)
Record TransactionOptions := {
  from : option Address;
  gas : option GasValue;
  gasLimit : option GasValue;
  gasPrice : option GasValue
}.

(** [ContractNetworkConfig] of ../types, restricted to the four properties
    this file reads. *)
Record ContractNetworkConfig := {
  safeMasterCopyAddress : Address;
  safeMasterCopyAbi : option (list AbiItem);
  safeProxyFactoryAddress : Address;
  safeProxyFactoryAbi : option (list AbiItem)
}.

(** [ContractNetworksConfig]: an object indexed by chain id. *)
Abbreviation ContractNetworksConfig := (gmap Z ContractNetworkConfig).

Record DeploySafeProps := {
  safeAccountConfig : SafeAccountConfig;
  safeDeploymentConfig : option SafeDeploymentConfig;
  options : option TransactionOptions
}.

(** ** JavaScript operators used by the file *)

(** Truthiness of an optional gas value: [undefined], [0] and the empty
    string are falsy. *)
Definition truthy (v : option GasValue) : bool :=
  match v with
  | None => false
  | Some (GasNumber n) => negb (n =? 0)
  | Some (GasString EmptyString) => false
  | Some (GasString (String _ _)) => true
  end.

(** [{ from: signerAddress, ...options }]: the properties of [options]
    are copied over the literal, so an explicit [from] wins. *)
Definition spread_from (signerAddress : Address) (opts : option TransactionOptions)
  : TransactionOptions :=
  match opts with
  | None =>
      {| from := Some signerAddress; gas := None; gasLimit := None; gasPrice := None |}
  | Some o =>
      {| from := match from o with Some f => Some f | None => Some signerAddress end;
         gas := gas o; gasLimit := gasLimit o; gasPrice := gasPrice o |}
  end.

(** An element of the argument array handed to [encode]. *)
Inductive Arg :=
| ArgAddresses (l : list Address)
| ArgNumber (n : Z)
| ArgString (s : string).

(** ** What the module imports *)

(** The names index.ts imports and only uses: the collaborators' types,
    the pure getters of the contract wrappers, the constants, and the
    lookups in the table of built-in deployments. *)
Class Imports := {
  EthAdapter : Type;
  GnosisSafeContract : Type;
  GnosisSafeProxyFactoryContract : Type;
  Safe : Type;
  SingletonDeployment : Type;
  GnosisSafeContract_getAddress : GnosisSafeContract → Address;
  GnosisSafeProxyFactoryContract_getAddress : GnosisSafeProxyFactoryContract → Address;
  SAFE_LAST_VERSION : SafeVersion;
  ZERO_ADDRESS : Address;
  EMPTY_DATA : string;
  getSafeContractDeployment :
    SafeVersion → Z → option bool → option SingletonDeployment;
  getSafeProxyFactoryContractDeployment :
    SafeVersion → Z → option SingletonDeployment;
  isAddress : string → bool
}.

Section SafeFactory.
Context {imports : Imports}.

Record SafeFactoryConfig := {
  ethAdapter : EthAdapter;
  safeVersion : option SafeVersion;
  isL1SafeMasterCopy : option bool;
  contractNetworks : option ContractNetworksConfig
}.

(** The private fields of the class.  [new SafeFactory()] leaves all of
    them undefined; [init] assigns them. *)
Record SafeFactory := {
  _contractNetworks : option ContractNetworksConfig;
  _isL1SafeMasterCopy : option bool;
  _safeVersion : option SafeVersion;
  _ethAdapter : option EthAdapter;
  _safeProxyFactoryContract : option GnosisSafeProxyFactoryContract;
  _gnosisSafeContract : option GnosisSafeContract
}.

(** ** Calls that leave the module *)

(** One constructor per method called on a collaborator, indexed by the
    type of its answer.  The two JavaScript built-ins that read the clock
    and the random generator are calls as well. *)
Inductive Call : Type → Type :=
| EthAdapter_getChainId (a : EthAdapter) : Call Z
| EthAdapter_getSignerAddress (a : EthAdapter) : Call Address
| EthAdapter_isContractDeployed (a : EthAdapter) (address : Address) : Call bool
| EthAdapter_getSafeContract (a : EthAdapter)
    (version : SafeVersion) (chainId : Z)
    (singletonDeployment : option SingletonDeployment)
    (customContractAddress : option Address)
    (customContractAbi : option (list AbiItem)) : Call GnosisSafeContract
| EthAdapter_getSafeProxyFactoryContract (a : EthAdapter)
    (version : SafeVersion) (chainId : Z)
    (singletonDeployment : option SingletonDeployment)
    (customContractAddress : option Address)
    (customContractAbi : option (list AbiItem)) : Call GnosisSafeProxyFactoryContract
| GnosisSafeContract_encode (c : GnosisSafeContract)
    (methodName : string) (params : list Arg) : Call string
| GnosisSafeProxyFactoryContract_createProxy (c : GnosisSafeProxyFactoryContract)
    (masterCopyAddress : Address) (initializer : string) (salt : Z)
    (opts : TransactionOptions) : Call Address
| Safe_create (a : EthAdapter) (safeAddress : Address)
    (isL1 : option bool) (networks : option ContractNetworksConfig) : Call Safe
| Date_now : Call Z
| Math_random : Call Q.

(** A call together with how it completed. *)
Inductive Obs :=
| Obs_getChainId (a : EthAdapter) (r : Completion Z)
| Obs_getSignerAddress (a : EthAdapter) (r : Completion Address)
| Obs_isContractDeployed (a : EthAdapter) (address : Address) (r : Completion bool)
| Obs_getSafeContract (a : EthAdapter)
    (version : SafeVersion) (chainId : Z)
    (singletonDeployment : option SingletonDeployment)
    (customContractAddress : option Address)
    (customContractAbi : option (list AbiItem)) (r : Completion GnosisSafeContract)
| Obs_getSafeProxyFactoryContract (a : EthAdapter)
    (version : SafeVersion) (chainId : Z)
    (singletonDeployment : option SingletonDeployment)
    (customContractAddress : option Address)
    (customContractAbi : option (list AbiItem))
    (r : Completion GnosisSafeProxyFactoryContract)
| Obs_encode (c : GnosisSafeContract)
    (methodName : string) (params : list Arg) (r : Completion string)
| Obs_createProxy (c : GnosisSafeProxyFactoryContract)
    (masterCopyAddress : Address) (initializer : string) (salt : Z)
    (opts : TransactionOptions) (r : Completion Address)
| Obs_Safe_create (a : EthAdapter) (safeAddress : Address)
    (isL1 : option bool) (networks : option ContractNetworksConfig)
    (r : Completion Safe)
| Obs_Date_now (r : Completion Z)
| Obs_Math_random (r : Completion Q).

Definition observe {X} (c : Call X) : Completion X → Obs :=
  match c with
  | EthAdapter_getChainId a => Obs_getChainId a
  | EthAdapter_getSignerAddress a => Obs_getSignerAddress a
  | EthAdapter_isContractDeployed a x => Obs_isContractDeployed a x
  | EthAdapter_getSafeContract a v i d x y => Obs_getSafeContract a v i d x y
  | EthAdapter_getSafeProxyFactoryContract a v i d x y =>
      Obs_getSafeProxyFactoryContract a v i d x y
  | GnosisSafeContract_encode c m p => Obs_encode c m p
  | GnosisSafeProxyFactoryContract_createProxy c m i s o => Obs_createProxy c m i s o
  | Safe_create a x l n => Obs_Safe_create a x l n
  | Date_now => Obs_Date_now
  | Math_random => Obs_Math_random
  end.

(** ** Programs *)

(** A method body: it returns, throws, or makes a call and goes on with the
    answer.  A call that throws ends the program with that error, since
    index.ts has no [try]. *)
Inductive Prog (A : Type) : Type :=
| Ret (a : A)
| Throw (e : Error)
| Vis {X : Type} (c : Call X) (k : X → Prog A).
Arguments Ret {A} a.
Arguments Throw {A} e.
Arguments Vis {A X} c k.

Fixpoint bind {A B} (p : Prog A) (f : A → Prog B) : Prog B :=
  match p with
  | Ret a => f a
  | Throw e => Throw e
  | Vis c k => Vis c (λ x, bind (k x) f)
  end.

#[export] Instance Prog_ret : MRet Prog := λ A, Ret.
#[export] Instance Prog_bind : MBind Prog := λ A B f p, bind p f.

Definition call {X} (c : Call X) : Prog X := Vis c Ret.

(** Lift the completion of a synchronous pure function. *)
Definition complete {A} (r : Completion A) : Prog A :=
  match r with
  | Returns a => Ret a
  | Throws e => Throw e
  end.

(** The receiver of a method call read from a field: undefined before
    [init] has assigned it. *)
Definition receiver {A} (property : string) (o : option A) : Prog A :=
  match o with
  | Some x => Ret x
  | None => Throw (TypeError property)
  end.

(** ** Environments and runs *)

(** An environment answers every call from a state of its own. *)
Record Env (W : Type) := {
  respond : ∀ X, Call X → W → Completion X * W
}.
Arguments respond {W} e {X} c w.

Record Run (W A : Type) := {
  trace : list Obs;
  outcome : Completion A;
  final : W
}.
Arguments trace {W A} r.
Arguments outcome {W A} r.
Arguments final {W A} r.

Fixpoint exec {W A} (env : Env W) (p : Prog A) (w : W) : Run W A :=
  match p with
  | Ret a => {| trace := []; outcome := Returns a; final := w |}
  | Throw e => {| trace := []; outcome := Throws e; final := w |}
  | Vis c k =>
      match respond env c w with
      | (Throws e, w1) =>
          {| trace := [observe c (Throws e)]; outcome := Throws e; final := w1 |}
      | (Returns x, w1) =>
          let r := exec env (k x) w1 in
          {| trace := observe c (Returns x) :: trace r;
             outcome := outcome r; final := final r |}
      end
  end.

(** ** ./utils *)

(** The error the validator raises. *)
Definition InvalidConfiguration : Error := Error_ "InvalidConfiguration".

(** Modelled from the spec: [validateSafeAccountConfig] is defined in
    ./utils, which is not part of the sources at hand.  Section 4.1 of the
    specification: it fails with [InvalidConfiguration] when owners is
    empty, when an owner address is malformed or the zero address, when
    duplicate owners exist, or when threshold is outside
    [[1, owners.length]]; it has no side effects.  What makes an address
    malformed is left to [isAddress]. *)
Definition validateSafeAccountConfig (c : SafeAccountConfig) : Completion () :=
  if bool_decide (owners c = []) then Throws InvalidConfiguration
  else if existsb (λ o, negb (isAddress o) || bool_decide (o = ZERO_ADDRESS)) (owners c)
  then Throws InvalidConfiguration
  else if negb (bool_decide (NoDup (owners c))) then Throws InvalidConfiguration
  else if (threshold c <? 1) || (Z.of_nat (length (owners c)) <? threshold c)
  then Throws InvalidConfiguration
  else Returns ().

(** ** class SafeFactory *)

Definition new_SafeFactory : SafeFactory :=
  {| _contractNetworks := None; _isL1SafeMasterCopy := None; _safeVersion := None;
     _ethAdapter := None; _safeProxyFactoryContract := None;
     _gnosisSafeContract := None |}.

Definition set_safeProxyFactoryContract (this : SafeFactory)
    (c : GnosisSafeProxyFactoryContract) : SafeFactory :=
  {| _contractNetworks := _contractNetworks this;
     _isL1SafeMasterCopy := _isL1SafeMasterCopy this;
     _safeVersion := _safeVersion this;
     _ethAdapter := _ethAdapter this;
     _safeProxyFactoryContract := Some c;
     _gnosisSafeContract := _gnosisSafeContract this |}.

Definition set_gnosisSafeContract (this : SafeFactory)
    (c : GnosisSafeContract) : SafeFactory :=
  {| _contractNetworks := _contractNetworks this;
     _isL1SafeMasterCopy := _isL1SafeMasterCopy this;
     _safeVersion := _safeVersion this;
     _ethAdapter := _ethAdapter this;
     _safeProxyFactoryContract := _safeProxyFactoryContract this;
     _gnosisSafeContract := Some c |}.

(** [private async getSafeContract] (lines 196-222). *)
Definition getSafeContract (this : SafeFactory)
    (adapter : EthAdapter) (version : SafeVersion) (chainId : Z)
    (isL1 : option bool) (customContracts : option ContractNetworkConfig)
  : Prog GnosisSafeContract :=
  let safeSingletonDeployment :=
    getSafeContractDeployment SAFE_LAST_VERSION chainId isL1 in
  gnosisSafeContract ← call (EthAdapter_getSafeContract adapter version chainId
                               safeSingletonDeployment
                               (safeMasterCopyAddress <$> customContracts)
                               (customContracts ≫= safeMasterCopyAbi));
  a ← receiver "isContractDeployed" (_ethAdapter this);
  isContractDeployed ← call (EthAdapter_isContractDeployed a
                               (GnosisSafeContract_getAddress gnosisSafeContract));
  if negb isContractDeployed
  then Throw (Error_ "Safe Proxy contract is not deployed in the current network")
  else Ret gnosisSafeContract.

(** [private async getProxyFactoryContract] (lines 224-245). *)
Definition getProxyFactoryContract (this : SafeFactory)
    (adapter : EthAdapter) (version : SafeVersion) (chainId : Z)
    (customContracts : option ContractNetworkConfig)
  : Prog GnosisSafeProxyFactoryContract :=
  let proxyFactoryDeployment :=
    getSafeProxyFactoryContractDeployment version chainId in
  safeProxyFactoryContract ←
    call (EthAdapter_getSafeProxyFactoryContract adapter version chainId
            proxyFactoryDeployment
            (safeProxyFactoryAddress <$> customContracts)
            (customContracts ≫= safeProxyFactoryAbi));
  a ← receiver "isContractDeployed" (_ethAdapter this);
  isContractDeployed ←
    call (EthAdapter_isContractDeployed a
            (GnosisSafeProxyFactoryContract_getAddress safeProxyFactoryContract));
  if negb isContractDeployed
  then Throw (Error_ "Safe Proxy Factory contract is not deployed in the current network")
  else Ret safeProxyFactoryContract.

(** [private async init] (lines 95-120).  The method assigns fields of
    [this]; the embedding returns the object as it stands when the method
    returns. *)
Definition init (this : SafeFactory)
    (adapter : EthAdapter) (version : SafeVersion)
    (isL1 : option bool) (networks : option ContractNetworksConfig)
  : Prog SafeFactory :=
  let this :=
    {| _contractNetworks := networks; _isL1SafeMasterCopy := isL1;
       _safeVersion := Some version; _ethAdapter := Some adapter;
       _safeProxyFactoryContract := _safeProxyFactoryContract this;
       _gnosisSafeContract := _gnosisSafeContract this |} in
  a ← receiver "getChainId" (_ethAdapter this);
  chainId ← call (EthAdapter_getChainId a);
  let customContracts := networks ≫= (λ n, n !! chainId) in
  factoryContract ← getProxyFactoryContract this adapter version chainId customContracts;
  let this := set_safeProxyFactoryContract this factoryContract in
  safeContract ← getSafeContract this adapter version chainId isL1 customContracts;
  let this := set_gnosisSafeContract this safeContract in
  Ret this.

(** [static async create] (lines 84-93). *)
Definition create (config : SafeFactoryConfig) : Prog SafeFactory :=
  let version := default SAFE_LAST_VERSION (safeVersion config) in
  let isL1 := default false (isL1SafeMasterCopy config) in
  let safeFactorySdk := new_SafeFactory in
  safeFactorySdk ← init safeFactorySdk (ethAdapter config) version (Some isL1)
                     (contractNetworks config);
  Ret safeFactorySdk.

(** [getEthAdapter] and [getSafeVersion] (lines 122-128) return the field
    as it is: undefined on an object [init] has not run on. *)
Definition getEthAdapter (this : SafeFactory) : option EthAdapter :=
  _ethAdapter this.

Definition getSafeVersion (this : SafeFactory) : option SafeVersion :=
  _safeVersion this.

Definition getAddress (this : SafeFactory) : Prog Address :=
  c ← receiver "getAddress" (_safeProxyFactoryContract this);
  Ret (GnosisSafeProxyFactoryContract_getAddress c).

Definition getChainId (this : SafeFactory) : Prog Z :=
  a ← receiver "getChainId" (_ethAdapter this);
  call (EthAdapter_getChainId a).

(** The array handed to [encode] once the destructuring defaults of
    [encodeSetupCallData] are applied. *)
Definition setupParams (c : SafeAccountConfig) : list Arg :=
  let to_ := default ZERO_ADDRESS (to c) in
  let data_ := default EMPTY_DATA (data c) in
  let fallbackHandler_ := default ZERO_ADDRESS (fallbackHandler c) in
  let paymentToken_ := default ZERO_ADDRESS (paymentToken c) in
  let payment_ := default 0 (payment c) in
  let paymentReceiver_ := default ZERO_ADDRESS (paymentReceiver c) in
  [ ArgAddresses (owners c); ArgNumber (threshold c); ArgString to_;
    ArgString data_; ArgString fallbackHandler_; ArgString paymentToken_;
    ArgNumber payment_; ArgString paymentReceiver_ ].

(** [private async encodeSetupCallData] (lines 138-158). *)
Definition encodeSetupCallData (this : SafeFactory) (c : SafeAccountConfig)
  : Prog string :=
  safeContract ← receiver "encode" (_gnosisSafeContract this);
  call (GnosisSafeContract_encode safeContract "setup" (setupParams c)).

(** [Date.now() * 1000 + Math.floor(Math.random() * 1000)]. *)
Definition defaultSaltNonce : Prog Z :=
  now ← call Date_now;
  random ← call Math_random;
  Ret (now * 1000 + Qfloor (random * 1000)).

(** [async deploySafe] (lines 160-194). *)
Definition deploySafe (this : SafeFactory) (props : DeploySafeProps) : Prog Safe :=
  _ ← complete (validateSafeAccountConfig (safeAccountConfig props));
  a ← receiver "getSignerAddress" (_ethAdapter this);
  signerAddress ← call (EthAdapter_getSignerAddress a);
  initializer ← encodeSetupCallData this (safeAccountConfig props);
  salt ← match safeDeploymentConfig props ≫= saltNonce with
          | Some n => Ret n
          | None => defaultSaltNonce
          end;
  if truthy (options props ≫= gas) && truthy (options props ≫= gasLimit)
  then Throw (Error_ "Cannot specify gas and gasLimit together in transaction options")
  else
    factoryContract ← receiver "createProxy" (_safeProxyFactoryContract this);
    safeContract ← receiver "getAddress" (_gnosisSafeContract this);
    safeAddress ← call (GnosisSafeProxyFactoryContract_createProxy factoryContract
                          (GnosisSafeContract_getAddress safeContract)
                          initializer salt
                          (spread_from signerAddress (options props)));
    a ← receiver "isContractDeployed" (_ethAdapter this);
    isContractDeployed ← call (EthAdapter_isContractDeployed a safeAddress);
    if negb isContractDeployed
    then Throw (Error_ "Safe Proxy contract is not deployed in the current network")
    else
      a ← receiver "create" (_ethAdapter this);
      safe ← call (Safe_create a safeAddress (_isL1SafeMasterCopy this)
                     (_contractNetworks this));
      Ret safe.

(** ** Reading a trace *)

Definition thrown {X} (r : Completion X) : option Error :=
  match r with
  | Throws e => Some e
  | Returns _ => None
  end.

(** The error a call threw, if it threw. *)
Definition failed (o : Obs) : option Error :=
  match o with
  | Obs_getChainId _ r => thrown r
  | Obs_getSignerAddress _ r => thrown r
  | Obs_isContractDeployed _ _ r => thrown r
  | Obs_getSafeContract _ _ _ _ _ _ r => thrown r
  | Obs_getSafeProxyFactoryContract _ _ _ _ _ _ r => thrown r
  | Obs_encode _ _ _ r => thrown r
  | Obs_createProxy _ _ _ _ _ r => thrown r
  | Obs_Safe_create _ _ _ _ r => thrown r
  | Obs_Date_now r => thrown r
  | Obs_Math_random r => thrown r
  end.

(** Every call of the trace came back with an answer. *)
Definition answered (tr : list Obs) : bool :=
  forallb (λ o, bool_decide (failed o = None)) tr.

(** The failure of a collaborator that ended the run, if one did. *)
Definition failure (tr : list Obs) : option Error := last tr ≫= failed.

Definition is_createProxy (o : Obs) : bool :=
  match o with
  | Obs_createProxy _ _ _ _ _ _ => true
  | _ => false
  end.

Definition is_Safe_create (o : Obs) : bool :=
  match o with
  | Obs_Safe_create _ _ _ _ _ => true
  | _ => false
  end.

(** The two reads from which the default salt is made. *)
Definition is_default_salt_read (o : Obs) : bool :=
  match o with
  | Obs_Date_now _ | Obs_Math_random _ => true
  | _ => false
  end.

(** The calls that come before the proxy creation: the signer query, the
    encoding, the clock and the random generator. *)
Definition is_preparation (o : Obs) : bool :=
  match o with
  | Obs_getSignerAddress _ _ | Obs_encode _ _ _ _
  | Obs_Date_now _ | Obs_Math_random _ => true
  | _ => false
  end.

(** The calls by which a contract is resolved and checked. *)
Definition is_resolution_call (o : Obs) : bool :=
  match o with
  | Obs_getChainId _ _ | Obs_isContractDeployed _ _ _
  | Obs_getSafeContract _ _ _ _ _ _ _
  | Obs_getSafeProxyFactoryContract _ _ _ _ _ _ _ => true
  | _ => false
  end.

(** The call is not a code check that found no code. *)
Definition code_found (o : Obs) : bool :=
  match o with
  | Obs_isContractDeployed _ _ (Returns false) => false
  | _ => true
  end.

(** A configuration with every optional field written out: the value the
    destructuring of [encodeSetupCallData] binds to it. *)
Definition withDefaults (c : SafeAccountConfig) : SafeAccountConfig :=
  {| owners := owners c;
     threshold := threshold c;
     to := Some (default ZERO_ADDRESS (to c));
     data := Some (default EMPTY_DATA (data c));
     fallbackHandler := Some (default ZERO_ADDRESS (fallbackHandler c));
     paymentToken := Some (default ZERO_ADDRESS (paymentToken c));
     payment := Some (default 0 (payment c));
     paymentReceiver := Some (default ZERO_ADDRESS (paymentReceiver c)) |}.

(** [contractNetworks?.[chainId]] of [init]. *)
Definition customContractsFor (config : SafeFactoryConfig) (chainId : Z)
  : option ContractNetworkConfig :=
  contractNetworks config ≫= (λ n, n !! chainId).

(** ** Vocabulary of the specification *)

(** An instance on which [init] has run to its end. *)
Definition Initialised (this : SafeFactory) (a : EthAdapter)
    (f : GnosisSafeProxyFactoryContract) (s : GnosisSafeContract) : Prop :=
  _ethAdapter this = Some a
  ∧ _safeProxyFactoryContract this = Some f
  ∧ _gnosisSafeContract this = Some s.

(** The configurations the specification calls invalid (its data model,
    section 3, and the validator's contract, section 4.1). *)
Definition InvalidAccountConfig (c : SafeAccountConfig) : Prop :=
  owners c = []
  ∨ ¬ NoDup (owners c)
  ∨ In ZERO_ADDRESS (owners c)
  ∨ threshold c < 1
  ∨ Z.of_nat (length (owners c)) < threshold c.

(** The salt the caller supplied: [safeDeploymentConfig?.saltNonce]. *)
Definition suppliedSaltNonce (props : DeploySafeProps) : option Z :=
  safeDeploymentConfig props ≫= saltNonce.

(** The specification's reading of an optional field: the supplied value,
    or the neutral value when the field is omitted. *)
Definition supplied_or {A} (neutral : A) (field : option A) : A :=
  match field with
  | Some v => v
  | None => neutral
  end.

(** The eight fields of the setup call as the specification lists them. *)
Definition setup_fields (c : SafeAccountConfig) : list Arg :=
  [ ArgAddresses (owners c);
    ArgNumber (threshold c);
    ArgString (supplied_or ZERO_ADDRESS (to c));
    ArgString (supplied_or EMPTY_DATA (data c));
    ArgString (supplied_or ZERO_ADDRESS (fallbackHandler c));
    ArgString (supplied_or ZERO_ADDRESS (paymentToken c));
    ArgNumber (supplied_or 0 (payment c));
    ArgString (supplied_or ZERO_ADDRESS (paymentReceiver c)) ].

(** The errors of the specification's taxonomy, as index.ts raises them. *)
Definition ConflictingGasOptions : Error :=
  Error_ "Cannot specify gas and gasLimit together in transaction options".
Definition DeploymentVerificationFailed : Error :=
  Error_ "Safe Proxy contract is not deployed in the current network".
Definition SingletonNotDeployed : Error :=
  Error_ "Safe Proxy contract is not deployed in the current network".
Definition ProxyFactoryNotDeployed : Error :=
  Error_ "Safe Proxy Factory contract is not deployed in the current network".

(** ** The paths through deploySafe

    The runs of [deploySafe] sorted by the place where the method is left;
    [deploySafe_run] below shows that every run is one of them. *)

(** The salt: [safeDeploymentConfig?.saltNonce ?? Date.now() * 1000 + ...]. *)
Inductive SaltRun (props : DeploySafeProps) : list Obs → Completion Z → Prop :=
| salt_supplied n :
    suppliedSaltNonce props = Some n →
    SaltRun props [] (Returns n)
| salt_clock_throws e :
    suppliedSaltNonce props = None →
    SaltRun props [Obs_Date_now (Throws e)] (Throws e)
| salt_random_throws now e :
    suppliedSaltNonce props = None →
    SaltRun props [Obs_Date_now (Returns now); Obs_Math_random (Throws e)] (Throws e)
| salt_default now random :
    suppliedSaltNonce props = None →
    SaltRun props [Obs_Date_now (Returns now); Obs_Math_random (Returns random)]
      (Returns (now * 1000 + Qfloor (random * 1000))).

(** After the proxy creation: the code check and [Safe.create]. *)
Inductive VerifyRun (this : SafeFactory)
  : EthAdapter → Completion Address → list Obs → Completion Safe → Prop :=
| verify_not_created a e :
    VerifyRun this a (Throws e) [] (Throws e)
| verify_check_throws a safeAddress e :
    VerifyRun this a (Returns safeAddress)
      [Obs_isContractDeployed a safeAddress (Throws e)] (Throws e)
| verify_no_code a safeAddress :
    VerifyRun this a (Returns safeAddress)
      [Obs_isContractDeployed a safeAddress (Returns false)]
      (Throws (Error_ "Safe Proxy contract is not deployed in the current network"))
| verify_code a safeAddress res :
    VerifyRun this a (Returns safeAddress)
      [Obs_isContractDeployed a safeAddress (Returns true);
       Obs_Safe_create a safeAddress (_isL1SafeMasterCopy this)
         (_contractNetworks this) res]
      res.

(** After the salt: the gas check and the proxy creation. *)
Inductive SubmitRun (this : SafeFactory) (props : DeploySafeProps)
  : EthAdapter → Address → GnosisSafeContract → string → Completion Z →
    list Obs → Completion Safe → Prop :=
| submit_no_salt a signerAddress s initializer e :
    SubmitRun this props a signerAddress s initializer (Throws e) [] (Throws e)
| submit_gas_conflict a signerAddress s initializer salt :
    truthy (options props ≫= gas) && truthy (options props ≫= gasLimit) = true →
    SubmitRun this props a signerAddress s initializer (Returns salt) []
      (Throws (Error_ "Cannot specify gas and gasLimit together in transaction options"))
| submit_no_factory a signerAddress s initializer salt :
    truthy (options props ≫= gas) && truthy (options props ≫= gasLimit) = false →
    _safeProxyFactoryContract this = None →
    SubmitRun this props a signerAddress s initializer (Returns salt) []
      (Throws (TypeError "createProxy"))
| submit_sent a signerAddress s initializer salt f created tail res :
    truthy (options props ≫= gas) && truthy (options props ≫= gasLimit) = false →
    _safeProxyFactoryContract this = Some f →
    VerifyRun this a created tail res →
    SubmitRun this props a signerAddress s initializer (Returns salt)
      (Obs_createProxy f (GnosisSafeContract_getAddress s) initializer salt
         (spread_from signerAddress (options props)) created
       :: tail)
      res.

(** The whole method. *)
Inductive DeployRun (this : SafeFactory) (props : DeploySafeProps)
  : list Obs → Completion Safe → Prop :=
| deploy_invalid e :
    validateSafeAccountConfig (safeAccountConfig props) = Throws e →
    DeployRun this props [] (Throws e)
| deploy_no_adapter :
    validateSafeAccountConfig (safeAccountConfig props) = Returns () →
    _ethAdapter this = None →
    DeployRun this props [] (Throws (TypeError "getSignerAddress"))
| deploy_signer_throws a e :
    validateSafeAccountConfig (safeAccountConfig props) = Returns () →
    _ethAdapter this = Some a →
    DeployRun this props [Obs_getSignerAddress a (Throws e)] (Throws e)
| deploy_no_singleton a signerAddress :
    validateSafeAccountConfig (safeAccountConfig props) = Returns () →
    _ethAdapter this = Some a →
    _gnosisSafeContract this = None →
    DeployRun this props [Obs_getSignerAddress a (Returns signerAddress)]
      (Throws (TypeError "encode"))
| deploy_encode_throws a signerAddress s e :
    validateSafeAccountConfig (safeAccountConfig props) = Returns () →
    _ethAdapter this = Some a →
    _gnosisSafeContract this = Some s →
    DeployRun this props
      [Obs_getSignerAddress a (Returns signerAddress);
       Obs_encode s "setup" (setupParams (safeAccountConfig props)) (Throws e)]
      (Throws e)
| deploy_prepared a signerAddress s initializer ts salt tail res :
    validateSafeAccountConfig (safeAccountConfig props) = Returns () →
    _ethAdapter this = Some a →
    _gnosisSafeContract this = Some s →
    SaltRun props ts salt →
    SubmitRun this props a signerAddress s initializer salt tail res →
    DeployRun this props
      (Obs_getSignerAddress a (Returns signerAddress)
       :: Obs_encode s "setup" (setupParams (safeAccountConfig props))
            (Returns initializer)
       :: ts ++ tail)
      res.

(** ** The paths through create

    The runs of [create], one constructor per way out of [init];
    [create_run] below shows that every run is one of them. *)

(** The two resolution calls [init] makes for a chain id. *)
Definition proxyFactoryResolution (config : SafeFactoryConfig) (chainId : Z)
    (r : Completion GnosisSafeProxyFactoryContract) : Obs :=
  let version := default SAFE_LAST_VERSION (safeVersion config) in
  Obs_getSafeProxyFactoryContract (ethAdapter config) version chainId
    (getSafeProxyFactoryContractDeployment version chainId)
    (safeProxyFactoryAddress <$> customContractsFor config chainId)
    (customContractsFor config chainId ≫= safeProxyFactoryAbi) r.

Definition singletonResolution (config : SafeFactoryConfig) (chainId : Z)
    (r : Completion GnosisSafeContract) : Obs :=
  let version := default SAFE_LAST_VERSION (safeVersion config) in
  Obs_getSafeContract (ethAdapter config) version chainId
    (getSafeContractDeployment SAFE_LAST_VERSION chainId
       (Some (default false (isL1SafeMasterCopy config))))
    (safeMasterCopyAddress <$> customContractsFor config chainId)
    (customContractsFor config chainId ≫= safeMasterCopyAbi) r.

(** The object [create] returns. *)
Definition createdFactory (config : SafeFactoryConfig)
    (f : GnosisSafeProxyFactoryContract) (s : GnosisSafeContract) : SafeFactory :=
  {| _contractNetworks := contractNetworks config;
     _isL1SafeMasterCopy := Some (default false (isL1SafeMasterCopy config));
     _safeVersion := Some (default SAFE_LAST_VERSION (safeVersion config));
     _ethAdapter := Some (ethAdapter config);
     _safeProxyFactoryContract := Some f;
     _gnosisSafeContract := Some s |}.

Inductive CreateRun (config : SafeFactoryConfig)
  : list Obs → Completion SafeFactory → Prop :=
| create_chain_throws e :
    CreateRun config [Obs_getChainId (ethAdapter config) (Throws e)] (Throws e)
| create_factory_throws chainId e :
    CreateRun config
      [Obs_getChainId (ethAdapter config) (Returns chainId);
       proxyFactoryResolution config chainId (Throws e)]
      (Throws e)
| create_factory_check_throws chainId f e :
    CreateRun config
      [Obs_getChainId (ethAdapter config) (Returns chainId);
       proxyFactoryResolution config chainId (Returns f);
       Obs_isContractDeployed (ethAdapter config)
         (GnosisSafeProxyFactoryContract_getAddress f) (Throws e)]
      (Throws e)
| create_factory_no_code chainId f :
    CreateRun config
      [Obs_getChainId (ethAdapter config) (Returns chainId);
       proxyFactoryResolution config chainId (Returns f);
       Obs_isContractDeployed (ethAdapter config)
         (GnosisSafeProxyFactoryContract_getAddress f) (Returns false)]
      (Throws (Error_ "Safe Proxy Factory contract is not deployed in the current network"))
| create_singleton_throws chainId f e :
    CreateRun config
      [Obs_getChainId (ethAdapter config) (Returns chainId);
       proxyFactoryResolution config chainId (Returns f);
       Obs_isContractDeployed (ethAdapter config)
         (GnosisSafeProxyFactoryContract_getAddress f) (Returns true);
       singletonResolution config chainId (Throws e)]
      (Throws e)
| create_singleton_check_throws chainId f s e :
    CreateRun config
      [Obs_getChainId (ethAdapter config) (Returns chainId);
       proxyFactoryResolution config chainId (Returns f);
       Obs_isContractDeployed (ethAdapter config)
         (GnosisSafeProxyFactoryContract_getAddress f) (Returns true);
       singletonResolution config chainId (Returns s);
       Obs_isContractDeployed (ethAdapter config)
         (GnosisSafeContract_getAddress s) (Throws e)]
      (Throws e)
| create_singleton_no_code chainId f s :
    CreateRun config
      [Obs_getChainId (ethAdapter config) (Returns chainId);
       proxyFactoryResolution config chainId (Returns f);
       Obs_isContractDeployed (ethAdapter config)
         (GnosisSafeProxyFactoryContract_getAddress f) (Returns true);
       singletonResolution config chainId (Returns s);
       Obs_isContractDeployed (ethAdapter config)
         (GnosisSafeContract_getAddress s) (Returns false)]
      (Throws (Error_ "Safe Proxy contract is not deployed in the current network"))
| create_returns chainId f s :
    CreateRun config
      [Obs_getChainId (ethAdapter config) (Returns chainId);
       proxyFactoryResolution config chainId (Returns f);
       Obs_isContractDeployed (ethAdapter config)
         (GnosisSafeProxyFactoryContract_getAddress f) (Returns true);
       singletonResolution config chainId (Returns s);
       Obs_isContractDeployed (ethAdapter config)
         (GnosisSafeContract_getAddress s) (Returns true)]
      (Returns (createdFactory config f s)).

End SafeFactory.

Arguments Ret {imports A} a.
Arguments Throw {imports A} e.
Arguments Vis {imports A X} c k.
Arguments respond {imports W} e {X} c w.
Arguments trace {imports W A} r.
Arguments outcome {imports W A} r.
Arguments final {imports W A} r.

(** ** A concrete setting: the Rinkeby test network

    An instance of the imports and a family of environments on which the
    methods can be run.  The table of deployments follows the layout of the
    safe-deployments package: one record per released version, and from
    version 1.3.0 on a separate L2 singleton. *)
Module Rinkeby.

Record Deployment := {
  contractName : string;
  version : SafeVersion;
  defaultAddress : Address
}.

Definition singletonDeployment (v : SafeVersion) (chainId : Z) (isL1 : option bool)
  : option Deployment :=
  if bool_decide (v = "1.3.0") then
    if default false isL1
    then Some {| contractName := "GnosisSafe"; version := "1.3.0";
                 defaultAddress := "0xd9Db270c1B5E3Bd161E8c8503c55cEABeE709552" |}
    else Some {| contractName := "GnosisSafeL2"; version := "1.3.0";
                 defaultAddress := "0x3E5c63644E683549055b9Be8653de26E0B4CD36E" |}
  else if bool_decide (v = "1.2.0") then
    Some {| contractName := "GnosisSafe"; version := "1.2.0";
            defaultAddress := "0x6851D6fDFAfD08c0295C392436245E5bc78B0185" |}
  else if bool_decide (v = "1.1.1") then
    Some {| contractName := "GnosisSafe"; version := "1.1.1";
            defaultAddress := "0x34CfAC646f301356fAa8B21e94227e3583Fe3F5F" |}
  else None.

Definition proxyFactoryDeployment (v : SafeVersion) (chainId : Z)
  : option Deployment :=
  if bool_decide (v = "1.3.0") then
    Some {| contractName := "GnosisSafeProxyFactory"; version := "1.3.0";
            defaultAddress := "0xa6B71E26C5e0845f74c812102Ca7114b6a896AB2" |}
  else if bool_decide (v = "1.2.0") || bool_decide (v = "1.1.1") then
    Some {| contractName := "ProxyFactory"; version := "1.1.1";
            defaultAddress := "0x76E2cFc1F5Fa8F6a5b3fC4c8F4788F0116861F9B" |}
  else None.

Definition hexDigit (a : Ascii.ascii) : bool :=
  let n := Ascii.nat_of_ascii a in
  ((48 <=? n) && (n <=? 57) || (65 <=? n) && (n <=? 70)
   || (97 <=? n) && (n <=? 102))%nat.

Fixpoint hexDigits (s : string) : bool :=
  match s with
  | EmptyString => true
  | String a s => hexDigit a && hexDigits s
  end.

(** "0x" followed by forty hexadecimal digits. *)
Definition wellFormed (s : string) : bool :=
  (String.length s =? 42)%nat && String.prefix "0x" s
  && hexDigits (String.substring 2 40 s).

#[export] Instance imports : Imports := {|
  EthAdapter := string;
  GnosisSafeContract := Address;
  GnosisSafeProxyFactoryContract := Address;
  Safe := Address;
  SingletonDeployment := Deployment;
  GnosisSafeContract_getAddress := id;
  GnosisSafeProxyFactoryContract_getAddress := id;
  SAFE_LAST_VERSION := "1.3.0";
  ZERO_ADDRESS := "0x0000000000000000000000000000000000000000";
  EMPTY_DATA := "0x";
  getSafeContractDeployment := singletonDeployment;
  getSafeProxyFactoryContractDeployment := proxyFactoryDeployment;
  isAddress := wellFormed
|}.

(** The contract behind a wrapper: the custom address when one is given,
    else the address of the built-in record. *)
Definition resolve (d : option Deployment) (custom : option Address)
  : Completion Address :=
  match custom, d with
  | Some x, _ => Returns x
  | None, Some r => Returns (defaultAddress r)
  | None, None => Throws (Error_ "Invalid contract address")
  end.

Definition signer : Address := "0x1111111111111111111111111111111111111111".
Definition proxy : Address := "0x5AFE5AFE5AFE5AFE5AFE5AFE5AFE5AFE5AFE5AFE".

(** The state of the network: the addresses that hold code.  [mined]
    tells whether a proxy creation leaves code behind, [online] whether the
    node answers the signer query. *)
Definition node (online mined : bool) : Env (list Address) :=
  {| respond := λ X (c : Call X),
       match c in Call X return list Address → Completion X * list Address with
       | EthAdapter_getChainId _ => λ w, (Returns 4, w)
       | EthAdapter_getSignerAddress _ => λ w,
           (if online then Returns signer else Throws (Error_ "network down"), w)
       | EthAdapter_isContractDeployed _ x => λ w,
           (Returns (bool_decide (x ∈ w)), w)
       | EthAdapter_getSafeContract _ _ _ d x _ => λ w, (resolve d x, w)
       | EthAdapter_getSafeProxyFactoryContract _ _ _ d x _ => λ w, (resolve d x, w)
       | GnosisSafeContract_encode _ m _ => λ w, (Returns ("0x" +:+ m), w)
       | GnosisSafeProxyFactoryContract_createProxy _ _ _ _ _ => λ w,
           (Returns proxy, if mined then proxy :: w else w)
       | Safe_create _ x _ _ => λ w, (Returns x, w)
       | Date_now => λ w, (Returns 1667433600000, w)
       | Math_random => λ w, (Returns (1 # 2)%Q, w)
       end |}.

(** Networks on which all, or only some, of the Safe contracts exist. *)
Definition deployedContracts : list Address :=
  [ "0xa6B71E26C5e0845f74c812102Ca7114b6a896AB2";
    "0x76E2cFc1F5Fa8F6a5b3fC4c8F4788F0116861F9B";
    "0xd9Db270c1B5E3Bd161E8c8503c55cEABeE709552";
    "0x3E5c63644E683549055b9Be8653de26E0B4CD36E";
    "0x34CfAC646f301356fAa8B21e94227e3583Fe3F5F" ].
Definition onlyProxyFactory : list Address :=
  [ "0xa6B71E26C5e0845f74c812102Ca7114b6a896AB2" ].

Definition ownerA : Address := "0xAAaAaAaaAaAaAaaAaAAAAAAAAaaaAaAaAaaAaaAa".
Definition ownerB : Address := "0xbBbBBBBbbBBBbbbBbbBbbbbBBbBbbbbBbBbbBBbB".

(** The end-to-end example of the specification: owners A and B,
    threshold 2, no optional field. *)
Definition twoOwners : SafeAccountConfig :=
  {| owners := [ownerA; ownerB]; threshold := 2; to := None; data := None;
     fallbackHandler := None; paymentToken := None; payment := None;
     paymentReceiver := None |}.

Definition noOwners : SafeAccountConfig :=
  {| owners := []; threshold := 1; to := None; data := None;
     fallbackHandler := None; paymentToken := None; payment := None;
     paymentReceiver := None |}.

Definition gasOptions (g l : option GasValue) : TransactionOptions :=
  {| from := None; gas := g; gasLimit := l; gasPrice := None |}.

Definition deployProps (c : SafeAccountConfig) (salt : option Z)
    (o : option TransactionOptions) : DeploySafeProps :=
  {| safeAccountConfig := c;
     safeDeploymentConfig := Some {| saltNonce := salt |};
     options := o |}.

Definition factoryConfig (v : option SafeVersion) : SafeFactoryConfig :=
  {| ethAdapter := "web3"; safeVersion := v; isL1SafeMasterCopy := None;
     contractNetworks := None |}.

(** The factory [create] returns for version 1.3.0 on a network that has
    the contracts. *)
Definition factory : SafeFactory :=
  {| _contractNetworks := None; _isL1SafeMasterCopy := Some false;
     _safeVersion := Some "1.3.0"; _ethAdapter := Some "web3";
     _safeProxyFactoryContract := Some "0xa6B71E26C5e0845f74c812102Ca7114b6a896AB2";
     _gnosisSafeContract := Some "0x3E5c63644E683549055b9Be8653de26E0B4CD36E" |}.

Definition tooFewOwners : SafeAccountConfig :=
  {| owners := [ownerA; ownerB]; threshold := 3; to := None; data := None;
     fallbackHandler := None; paymentToken := None; payment := None;
     paymentReceiver := None |}.

Definition bothGasFields : TransactionOptions :=
  gasOptions (Some (GasNumber 100000)) (Some (GasString "21000")).

Definition zeroGas : TransactionOptions :=
  gasOptions (Some (GasNumber 0)) (Some (GasNumber 21000)).

Definition noDeploymentConfig (c : SafeAccountConfig) (o : option TransactionOptions)
  : DeploySafeProps :=
  {| safeAccountConfig := c; safeDeploymentConfig := None; options := o |}.

(** Options that name a sender and a gas price. *)
Definition senderOptions : TransactionOptions :=
  {| from := Some ownerB; gas := None; gasLimit := None;
     gasPrice := Some (GasString "1000000000") |}.

(** A configuration that overrides the contracts of chain 4 and of no
    other chain. *)
Definition customContracts : ContractNetworkConfig :=
  {| safeMasterCopyAddress := "0xC0C0C0C0C0C0C0C0C0C0C0C0C0C0C0C0C0C0C0C0";
     safeMasterCopyAbi := Some ["setup"];
     safeProxyFactoryAddress := "0xFAFAFAFAFAFAFAFAFAFAFAFAFAFAFAFAFAFAFAFA";
     safeProxyFactoryAbi := None |}.

Definition customDeployed : list Address :=
  [ "0xC0C0C0C0C0C0C0C0C0C0C0C0C0C0C0C0C0C0C0C0";
    "0xFAFAFAFAFAFAFAFAFAFAFAFAFAFAFAFAFAFAFAFA" ].

Definition customFactoryConfig : SafeFactoryConfig :=
  {| ethAdapter := "web3"; safeVersion := Some "1.2.0";
     isL1SafeMasterCopy := Some true;
     contractNetworks := Some {[ 4 := customContracts ]} |}.

End Rinkeby.

(** * Properties *)

Section Properties.
Context {imports : Imports} {W : Type} (env : Env W).

(** Answer the next call of the run in the goal, both ways. *)
Ltac exec_step :=
  match goal with
  | |- context [respond ?e ?c ?w] =>
      destruct (respond e c w) as [[?|?] ?] eqn:?
  end;
  cbn -[Qfloor Qmult Z.mul Z.add truthy].

Ltac unfold_methods :=
  unfold deploySafe, create, init, getSafeContract, getProxyFactoryContract,
    encodeSetupCallData, defaultSaltNonce, complete, receiver, call;
  cbn -[Qfloor Qmult Z.mul Z.add validateSafeAccountConfig truthy].

(** Membership in a trace that is known cell by cell. *)
Ltac trace_cases H :=
  repeat (destruct H as [H|H]; [try discriminate H|]); try contradiction H.

(** ** The validator *)

Lemma validate_cases c :
  validateSafeAccountConfig c = Returns ()
  ∨ validateSafeAccountConfig c = Throws InvalidConfiguration.
Proof.
  unfold validateSafeAccountConfig.
  repeat match goal with |- context [if ?b then _ else _] => destruct b end; auto.
Qed.

Lemma existsb_bad_owner (l : list Address) o :
  In o l → (isAddress o = false ∨ o = ZERO_ADDRESS) →
  existsb (λ o, negb (isAddress o) || bool_decide (o = ZERO_ADDRESS)) l = true.
Proof.
  intros Hin Hbad. apply existsb_exists. exists o. split; [exact Hin|].
  destruct Hbad as [-> | ->]; [reflexivity|].
  rewrite bool_decide_eq_true_2 by reflexivity. apply orb_true_r.
Qed.

Lemma validate_invalid c :
  InvalidAccountConfig c → validateSafeAccountConfig c = Throws InvalidConfiguration.
Proof.
  unfold InvalidAccountConfig, validateSafeAccountConfig. intros Hbad.
  case_bool_decide as Hnil; [reflexivity|].
  destruct (existsb _ _) eqn:Hex; [reflexivity|].
  case_bool_decide as Hdup; cbn; [|reflexivity].
  destruct (_ || _) eqn:Hth; [reflexivity|].
  apply orb_false_elim in Hth as [Hlo Hhi].
  apply Z.ltb_ge in Hlo, Hhi.
  destruct Hbad as [Hb|[Hb|[Hb|[Hb|Hb]]]]; try contradiction; try lia.
  rewrite (existsb_bad_owner _ ZERO_ADDRESS) in Hex; [discriminate|exact Hb|by right].
Qed.

Lemma validate_valid c :
  validateSafeAccountConfig c = Returns () ↔
  owners c ≠ []
  ∧ Forall (λ o, isAddress o = true ∧ o ≠ ZERO_ADDRESS) (owners c)
  ∧ NoDup (owners c)
  ∧ 1 ≤ threshold c ≤ Z.of_nat (length (owners c)).
Proof.
  unfold validateSafeAccountConfig.
  case_bool_decide as Hnil; [split; [discriminate|tauto]|].
  destruct (existsb _ _) eqn:Hex.
  { split; [discriminate|]. intros (_ & Hall & _). exfalso.
    apply existsb_exists in Hex as (o & Ho & Hbad).
    rewrite Forall_forall in Hall. destruct (Hall o) as [Ha Hz].
    - by apply list_elem_of_In.
    - rewrite Ha in Hbad. cbn in Hbad. by apply bool_decide_eq_true_1 in Hbad. }
  case_bool_decide as Hdup; cbn; [|split; [discriminate|tauto]].
  destruct (_ || _) eqn:Hth.
  { split; [discriminate|]. intros (_ & _ & _ & Hrange).
    apply orb_true_iff in Hth as [Hlt|Hlt]; apply Z.ltb_lt in Hlt; lia. }
  apply orb_false_elim in Hth as [Hlo Hhi].
  apply Z.ltb_ge in Hlo, Hhi.
  split; [intros _|reflexivity]. repeat split; try assumption.
  rewrite Forall_forall. intros o Ho. apply list_elem_of_In in Ho.
  destruct (isAddress o) eqn:Ha.
  - split; [reflexivity|]. intros Hz.
    rewrite (existsb_bad_owner _ o) in Hex; [discriminate|exact Ho|by right].
  - rewrite (existsb_bad_owner _ o) in Hex; [discriminate|exact Ho|by left].
Qed.

(** ** Every run of deploySafe follows one of the paths *)

Lemma deploySafe_run w this props :
  DeployRun this props (trace (exec env (deploySafe this props) w))
    (outcome (exec env (deploySafe this props) w)).
Proof.
  unfold_methods.
  destruct (validateSafeAccountConfig (safeAccountConfig props)) as [[]|e] eqn:Hv; cbn;
    [|by constructor].
  destruct (_ethAdapter this) as [a|] eqn:Ha; cbn; [|by constructor].
  exec_step; [|by constructor].
  destruct (_gnosisSafeContract this) as [s|] eqn:Hs; cbn; [|by constructor].
  exec_step; [|by constructor].
  destruct (safeDeploymentConfig props ≫= saltNonce) as [n|] eqn:Hn;
  destruct (truthy (options props ≫= gas) && truthy (options props ≫= gasLimit)) eqn:Hg;
  destruct (_safeProxyFactoryContract this) as [f|] eqn:Hf;
  cbn -[Qfloor Qmult Z.mul Z.add truthy];
  repeat exec_step;
  try match goal with |- context [if negb ?b then _ else _] => destruct b; cbn end;
  repeat exec_step.
  all: solve
    [ eapply (deploy_prepared _ _ _ _ _ _ []); eauto; repeat (econstructor; eauto)
    | eapply (deploy_prepared _ _ _ _ _ _ [_]); eauto; repeat (econstructor; eauto)
    | eapply (deploy_prepared _ _ _ _ _ _ [_; _]); eauto; repeat (econstructor; eauto) ].
Qed.

(** The state is only ever changed by the environment. *)
Lemma exec_no_call_final {A} (p : Prog A) w :
  trace (exec env p w) = [] → final (exec env p w) = w.
Proof.
  destruct p as [a|e|X c k]; cbn; [reflexivity..|].
  destruct (respond env c w) as [[x|e] w1]; discriminate.
Qed.

(** Inversion of the paths, as far as the properties need it. *)

Lemma SaltRun_reads props ts salt x :
  SaltRun props ts salt → In x ts →
  is_default_salt_read x = true ∧ is_createProxy x = false
  ∧ is_Safe_create x = false ∧ is_preparation x = true
  ∧ suppliedSaltNonce props = None.
Proof.
  intros Hrun Hin. destruct Hrun; cbn in Hin; trace_cases Hin; subst x; auto 6.
Qed.

Lemma SaltRun_answered props ts salt :
  SaltRun props ts salt → answered ts = true → ∃ n, salt = Returns n.
Proof. intros Hrun. destruct Hrun; cbn; intros; try discriminate; eauto. Qed.

Lemma VerifyRun_no_createProxy this a created tail res x :
  VerifyRun this a created tail res → In x tail →
  is_createProxy x = false ∧ is_default_salt_read x = false.
Proof.
  intros Hrun Hin. destruct Hrun; cbn in Hin; trace_cases Hin; subst x; auto.
Qed.

Lemma guard_of_options props o :
  options props = Some o →
  truthy (options props ≫= gas) && truthy (options props ≫= gasLimit)
  = truthy (gas o) && truthy (gasLimit o).
Proof. by intros ->. Qed.

(** Name the trace and the outcome of the run of [deploySafe] in the goal
    and bring in the path it follows. *)
Ltac deploy_paths w this props :=
  cbv zeta;
  generalize (deploySafe_run w this props);
  generalize (outcome (exec env (deploySafe this props) w));
  generalize (trace (exec env (deploySafe this props) w)).

(** ** Validation comes first *)

(** C3. A configuration that is invalid (no owners, a duplicate or zero
    owner address, a threshold outside [1, owners.length]) makes
    [deploySafe] fail with the invalid-configuration error without a single
    call to a collaborator: the trace of the run is empty and the state of
    the environment is untouched. *)
Theorem deploySafe_rejects_invalid_config w this props :
  InvalidAccountConfig (safeAccountConfig props) →
  let r := exec env (deploySafe this props) w in
  outcome r = Throws InvalidConfiguration ∧ trace r = [] ∧ final r = w.
Proof.
  intros Hbad%validate_invalid r.
  assert (deploySafe this props = Throw InvalidConfiguration) as Heq.
  { unfold deploySafe. by rewrite Hbad. }
  subst r. rewrite Heq. cbn. auto.
Qed.

(** ** The gas check *)

(** C2, amended. When [options.gas] and [options.gasLimit] are both truthy,
    no run of [deploySafe] submits a proxy creation; and when moreover the
    configuration passes validation, the factory is initialised and every
    call made came back with an answer, the run fails with the
    conflicting-gas error. *)
Theorem deploySafe_conflicting_gas w this props o :
  options props = Some o →
  truthy (gas o) = true →
  truthy (gasLimit o) = true →
  let r := exec env (deploySafe this props) w in
  (∀ x, In x (trace r) → is_createProxy x = false)
  ∧ (∀ a f s,
       validateSafeAccountConfig (safeAccountConfig props) = Returns () →
       Initialised this a f s →
       answered (trace r) = true →
       outcome r = Throws ConflictingGasOptions).
Proof.
  intros Ho Hg Hl.
  pose proof (guard_of_options props o Ho) as Hguard.
  rewrite Hg, Hl in Hguard. cbn in Hguard.
  deploy_paths w this props. intros tr out Hrun.
  destruct Hrun as [e Hv|Hv Ha|a e Hv Ha|a sg Hv Ha Hs|a sg s e Hv Ha Hs
                   |a sg s ini ts salt tail res Hv Ha Hs Hsalt Hsub].
  - split; [intros x []|]. intros ??? Hv'. congruence.
  - split; [intros x []|]. intros ??? _ (Ha' & _). congruence.
  - split; [intros x Hin; trace_cases Hin; by subst x|]. discriminate 3.
  - split; [intros x Hin; trace_cases Hin; by subst x|].
    intros ??? _ (_ & _ & Hs'). congruence.
  - split; [intros x Hin; trace_cases Hin; by subst x|]. discriminate 3.
  - destruct Hsub as [a1 sg1 s1 ini1 e|a1 sg1 s1 ini1 n Hgd|a1 sg1 s1 ini1 n Hgd Hf
                     |a1 sg1 s1 ini1 n f created tl rs Hgd Hf Hver]; try congruence.
    + split.
      * intros x Hin. rewrite app_nil_r in Hin.
        destruct Hin as [<-|[<-|Hin]]; [reflexivity..|].
        by eapply SaltRun_reads.
      * intros ??? _ _ Hans. rewrite app_nil_r in Hans. cbn in Hans.
        apply SaltRun_answered in Hsalt as [n Hn]; [discriminate|exact Hans].
    + split; [|reflexivity].
      intros x Hin. rewrite app_nil_r in Hin.
      destruct Hin as [<-|[<-|Hin]]; [reflexivity..|].
      by eapply SaltRun_reads.
Qed.

Lemma failure_submitted (o1 o2 : Obs) ts tail :
  tail ≠ [] → failure (o1 :: o2 :: ts ++ tail) = failure tail.
Proof.
  intros Hne. unfold failure.
  change (o1 :: o2 :: ts ++ tail) with ((o1 :: o2 :: ts) ++ tail).
  rewrite last_app. destruct (last tail) eqn:Hlast; [reflexivity|].
  apply last_None in Hlast. contradiction.
Qed.

Lemma SaltRun_failure props ts e (o1 o2 : Obs) :
  SaltRun props ts (Throws e) → failure (o1 :: o2 :: ts) = Some e.
Proof. intros Hrun. inversion Hrun; subst; reflexivity. Qed.

(** The conflict error, when no collaborator threw it, comes from the gas
    check. *)
Lemma DeployRun_conflict this props tr out :
  DeployRun this props tr out →
  out = Throws ConflictingGasOptions →
  failure tr = None →
  truthy (options props ≫= gas) && truthy (options props ≫= gasLimit) = true.
Proof.
  intros Hrun Hout Hfail.
  destruct Hrun as [e Hv|Hv Ha|a e Hv Ha|a sg Hv Ha Hs|a sg s e Hv Ha Hs
                   |a sg s ini ts salt tail res Hv Ha Hs Hsalt Hsub];
    try discriminate Hout; try discriminate Hfail.
  - destruct (validate_cases (safeAccountConfig props)) as [Hok|Hbad]; [congruence|].
    rewrite Hbad in Hv. injection Hv as <-. discriminate Hout.
  - destruct Hsub as [a1 sg1 s1 ini1 e|a1 sg1 s1 ini1 n Hgd|a1 sg1 s1 ini1 n Hgd Hf
                     |a1 sg1 s1 ini1 n f created tl rs Hgd Hf Hver];
      try discriminate Hout; [|exact Hgd|].
    + rewrite app_nil_r in Hfail.
      rewrite (SaltRun_failure _ _ _ _ _ Hsalt) in Hfail. discriminate Hfail.
    + rewrite failure_submitted in Hfail by discriminate.
      destruct Hver as [a2 e|a2 addr e|a2 addr|a2 addr rs'];
        try discriminate Hfail; try discriminate Hout.
      subst rs'. discriminate Hfail.
Qed.
(** C10. The gas check tests truthiness.  A run of [deploySafe] that ends
    with the conflict error, no collaborator having thrown, has both
    [options.gas] and [options.gasLimit] truthy.  And when the two are not
    both truthy (one of them is 0, the empty string or absent), on an
    initialised factory and with a configuration that passes validation,
    either a collaborator fails before the proxy creation, and that failure
    is the outcome, or the proxy creation is submitted with [options.gas]
    and [options.gasLimit] forwarded as they were given. *)
Theorem deploySafe_gas_check_truthiness w this props :
  let r := exec env (deploySafe this props) w in
  (outcome r = Throws ConflictingGasOptions →
   failure (trace r) = None →
   truthy (options props ≫= gas) = true ∧ truthy (options props ≫= gasLimit) = true)
  ∧ (∀ o a f s,
       validateSafeAccountConfig (safeAccountConfig props) = Returns () →
       Initialised this a f s →
       options props = Some o →
       truthy (gas o) && truthy (gasLimit o) = false →
       (∃ e, failure (trace r) = Some e ∧ outcome r = Throws e
             ∧ ∀ x, In x (trace r) → is_createProxy x = false)
       ∨ (∃ signerAddress initializer salt created,
            In (Obs_createProxy f (GnosisSafeContract_getAddress s) initializer salt
                  (spread_from signerAddress (Some o)) created) (trace r)
            ∧ gas (spread_from signerAddress (Some o)) = gas o
            ∧ gasLimit (spread_from signerAddress (Some o)) = gasLimit o)).
Proof.
  deploy_paths w this props. intros tr out Hrun. split.
  { intros Hout Hfail. apply andb_prop. by eapply DeployRun_conflict. }
  intros o a f s Hv (Ha & Hf & Hs) Ho Hfalsy.
  pose proof (guard_of_options props o Ho) as Hguard. rewrite Hfalsy in Hguard.
  destruct Hrun as [e Hv'|Hv' Ha'|a' e Hv' Ha'|a' sg Hv' Ha' Hs'|a' sg s' e Hv' Ha' Hs'
                   |a' sg s' ini ts salt tail res Hv' Ha' Hs' Hsalt Hsub];
    try congruence.
  - left. exists e. split; [reflexivity|split; [reflexivity|]].
    intros x Hin. trace_cases Hin; by subst x.
  - left. exists e. split; [reflexivity|split; [reflexivity|]].
    intros x Hin. trace_cases Hin; by subst x.
  - destruct Hsub as [a1 sg1 s1 ini1 e|a1 sg1 s1 ini1 n Hgd|a1 sg1 s1 ini1 n Hgd Hf'
                     |a1 sg1 s1 ini1 n f' created tl rs Hgd Hf' Hver]; try congruence.
    + left. exists e. rewrite app_nil_r.
      split; [by eapply SaltRun_failure|split; [reflexivity|]].
      intros x [<-|[<-|Hin]]; [reflexivity..|]. by eapply SaltRun_reads.
    + right. exists sg1, ini1, n, created.
      assert (f' = f) as -> by congruence. assert (s1 = s) as -> by congruence.
      rewrite Ho. split; [|by cbn].
      right; right. apply in_or_app. right. by left.
Qed.

(** A run of [deploySafe] either stops while it prepares the transaction,
    or submits the proxy creation and goes on with the verification. *)
Lemma DeployRun_cases this props tr out :
  DeployRun this props tr out →
  ((∀ x, In x tr → is_preparation x = true) ∧ ∃ e, out = Throws e)
  ∨ ∃ a signerAddress s f initializer ts salt created tail,
      Initialised this a f s
      ∧ validateSafeAccountConfig (safeAccountConfig props) = Returns ()
      ∧ truthy (options props ≫= gas) && truthy (options props ≫= gasLimit) = false
      ∧ SaltRun props ts (Returns salt)
      ∧ VerifyRun this a created tail out
      ∧ tr = Obs_getSignerAddress a (Returns signerAddress)
             :: Obs_encode s "setup" (setupParams (safeAccountConfig props))
                  (Returns initializer)
             :: ts
             ++ Obs_createProxy f (GnosisSafeContract_getAddress s) initializer salt
                  (spread_from signerAddress (options props)) created
             :: tail.
Proof.
  intros Hrun.
  destruct Hrun as [e Hv|Hv Ha|a e Hv Ha|a sg Hv Ha Hs|a sg s e Hv Ha Hs
                   |a sg s ini ts salt tail res Hv Ha Hs Hsalt Hsub].
  1-5: left; split; [intros x Hin; trace_cases Hin; by subst x | eauto].
  destruct Hsub as [a1 sg1 s1 ini1 e|a1 sg1 s1 ini1 n Hgd|a1 sg1 s1 ini1 n Hgd Hf
                   |a1 sg1 s1 ini1 n f created tl rs Hgd Hf Hver].
  1-3: left; split; [|eauto]; rewrite app_nil_r;
       intros x [<-|[<-|Hin]]; [reflexivity..|]; by eapply SaltRun_reads.
  right. exists a1, sg1, s1, f, ini1, ts, n, created, tl.
  by repeat split.
Qed.

Lemma in_submitted_trace (x o1 o2 o3 : Obs) ts tail :
  In x (o1 :: o2 :: ts ++ o3 :: tail) →
  x = o1 ∨ x = o2 ∨ In x ts ∨ x = o3 ∨ In x tail.
Proof.
  intros [<-|[<-|Hin]]; [auto..|].
  apply in_app_or in Hin as [Hin|[<-|Hin]]; auto.
Qed.

Lemma submitted_trace_in (x o1 o2 o3 : Obs) ts tail :
  x = o3 ∨ In x tail → In x (o1 :: o2 :: ts ++ o3 :: tail).
Proof.
  intros Hin. right; right. apply in_or_app. right.
  destruct Hin as [->|Hin]; [by left|by right].
Qed.

(** ** Verification of the deployment *)

(** C4. In every run of [deploySafe]: an address returned by the proxy
    creation is checked for code; a check that finds no code makes the run
    fail with the deployment-verification error and [Safe.create] is never
    called; and a [Safe] is returned only as the answer of [Safe.create]
    for the address the proxy creation returned and the check found code
    at. *)
Theorem deploySafe_verifies_code w this props :
  let r := exec env (deploySafe this props) w in
  (∀ c master initializer salt opts safeAddress,
     In (Obs_createProxy c master initializer salt opts (Returns safeAddress)) (trace r) →
     ∃ a res, In (Obs_isContractDeployed a safeAddress res) (trace r))
  ∧ (∀ a safeAddress,
     In (Obs_isContractDeployed a safeAddress (Returns false)) (trace r) →
     outcome r = Throws DeploymentVerificationFailed
     ∧ ∀ x, In x (trace r) → is_Safe_create x = false)
  ∧ (∀ safe, outcome r = Returns safe →
     ∃ c master initializer salt opts a safeAddress,
       In (Obs_createProxy c master initializer salt opts (Returns safeAddress)) (trace r)
       ∧ In (Obs_isContractDeployed a safeAddress (Returns true)) (trace r)
       ∧ In (Obs_Safe_create a safeAddress (_isL1SafeMasterCopy this)
               (_contractNetworks this) (Returns safe)) (trace r)).
Proof.
  deploy_paths w this props. intros tr out Hrun.
  apply DeployRun_cases in Hrun
    as [[Hprep [e ->]]
       |(a & sg & s & f & ini & ts & salt & created & tail
         & Hinit & Hv & Hgd & Hsalt & Hver & ->)].
  { split; [|split].
    - intros ?????? Hin%Hprep. discriminate Hin.
    - intros ?? Hin%Hprep. discriminate Hin.
    - discriminate 1. }
  split; [|split].
  - intros c master ini' salt' opts addr Hin.
    apply in_submitted_trace in Hin as [Hin|[Hin|[Hin|[Hin|Hin]]]]; try discriminate Hin.
    + eapply SaltRun_reads in Hin as (_ & Hcp & _); [discriminate Hcp|exact Hsalt].
    + injection Hin; intros; subst.
      inversion Hver; subst; do 2 eexists; apply submitted_trace_in; right; by left.
    + eapply VerifyRun_no_createProxy in Hin as [Hcp _]; [discriminate Hcp|exact Hver].
  - intros a' addr Hin.
    apply in_submitted_trace in Hin as [Hin|[Hin|[Hin|[Hin|Hin]]]]; try discriminate Hin.
    + eapply SaltRun_reads in Hin as (Hrd & _); [discriminate Hrd|exact Hsalt].
    + destruct Hver; cbn in Hin; trace_cases Hin.
      split; [reflexivity|].
      intros x Hx.
      apply in_submitted_trace in Hx as [->|[->|[Hx|[->|Hx]]]]; try reflexivity.
      * by eapply SaltRun_reads.
      * cbn in Hx. trace_cases Hx. by subst x.
  - intros safe ->.
    inversion Hver as [| | |a' addr res Ha Hc Htl Hres]; subst.
    exists f, (GnosisSafeContract_getAddress s), ini, salt,
      (spread_from sg (options props)), a, addr.
    split; [|split]; apply submitted_trace_in; cbn; auto.
Qed.

(** On an initialised factory, with a valid configuration and a gas check
    that passes, a run in which every call is answered submits the proxy
    creation. *)
Lemma DeployRun_answered this props tr out a f s :
  DeployRun this props tr out →
  validateSafeAccountConfig (safeAccountConfig props) = Returns () →
  Initialised this a f s →
  truthy (options props ≫= gas) && truthy (options props ≫= gasLimit) = false →
  answered tr = true →
  ∃ signerAddress initializer ts salt safeAddress tail,
    SaltRun props ts (Returns salt)
    ∧ VerifyRun this a (Returns safeAddress) tail out
    ∧ tr = Obs_getSignerAddress a (Returns signerAddress)
           :: Obs_encode s "setup" (setupParams (safeAccountConfig props))
                (Returns initializer)
           :: ts
           ++ Obs_createProxy f (GnosisSafeContract_getAddress s) initializer salt
                (spread_from signerAddress (options props)) (Returns safeAddress)
           :: tail.
Proof.
  intros Hrun Hv (Ha & Hf & Hs) Hgd Hans.
  destruct Hrun as [e Hv'|Hv' Ha'|a' e Hv' Ha'|a' sg Hv' Ha' Hs'|a' sg s' e Hv' Ha' Hs'
                   |a' sg s' ini ts salt tail res Hv' Ha' Hs' Hsalt Hsub];
    try congruence; try discriminate Hans.
  unfold answered in Hans. cbn in Hans. rewrite forallb_app in Hans.
  apply andb_prop in Hans as [Hts Htail].
  destruct (SaltRun_answered _ _ _ Hsalt Hts) as [n ->].
  inversion Hsub as [| | |a1 sg1 s1 ini1 n1 f' created tl rs Hgd' Hf' Hver]; subst;
    try congruence.
  destruct created as [addr|e]; [|discriminate Htail].
  exists sg, ini, ts, n, addr, tl.
  assert (f' = f) as -> by congruence. assert (s' = s) as -> by congruence.
  assert (a' = a) as -> by congruence. auto.
Qed.

(** ** The setup payload *)

(** C5. On a factory that holds a singleton contract, [encodeSetupCallData]
    makes one call: [encode] of the method "setup" over the eight fields
    owners, threshold, to, data, fallbackHandler, paymentToken, payment,
    paymentReceiver, in which an omitted optional field is the zero address,
    the empty data or the amount zero; what [encode] answers is the
    result. *)
Theorem encodeSetupCallData_payload w this s c :
  _gnosisSafeContract this = Some s →
  let r := exec env (encodeSetupCallData this c) w in
  length (setup_fields c) = 8%nat
  ∧ ∃ res, trace r = [Obs_encode s "setup" (setup_fields c) res] ∧ outcome r = res.
Proof.
  intros Hs. unfold_methods. rewrite Hs. cbn. split; [reflexivity|].
  change (setupParams c) with (setup_fields c).
  exec_step; eauto.
Qed.

(** ** The salt *)

Lemma Qfloor_random_range (random : Q) :
  (0 <= random)%Q → (random < 1)%Q → 0 ≤ Qfloor (random * 1000) < 1000.
Proof.
  intros Hlo Hhi. split.
  - change 0 with (Qfloor 0). apply Qfloor_resp_le.
    apply Qmult_le_0_compat; [exact Hlo|discriminate].
  - rewrite Zlt_Qlt. eapply Qle_lt_trans; [apply Qfloor_le|].
    change (inject_Z 1000) with (1 * 1000)%Q.
    apply Qmult_lt_compat_r; [reflexivity|exact Hhi].
Qed.

Lemma suppliedSaltNonce_None props :
  suppliedSaltNonce props = None ↔
  safeDeploymentConfig props = None
  ∨ ∃ d, safeDeploymentConfig props = Some d ∧ saltNonce d = None.
Proof.
  unfold suppliedSaltNonce. destruct (safeDeploymentConfig props) as [d|]; cbn.
  - split; [eauto|]. intros [?|(d' & [= <-] & ?)]; [discriminate|assumption].
  - split; auto.
Qed.


(** C9. A supplied [saltNonce] of 0 is used as it is: every proxy creation
    of the run carries the salt 0, neither the clock nor the random
    generator is read, and on an initialised factory, with a valid
    configuration and a passing gas check, a run whose calls are all
    answered does submit the proxy creation with salt 0.  The clock or the
    random generator is read only when [safeDeploymentConfig] or its
    [saltNonce] is missing. *)
Theorem deploySafe_zero_salt_honoured w this props :
  let r := exec env (deploySafe this props) w in
  (∀ d, safeDeploymentConfig props = Some d → saltNonce d = Some 0 →
     (∀ c master initializer salt opts created,
        In (Obs_createProxy c master initializer salt opts created) (trace r) →
        salt = 0)
     ∧ (∀ x, In x (trace r) → is_default_salt_read x = false)
     ∧ (∀ a f s,
          validateSafeAccountConfig (safeAccountConfig props) = Returns () →
          Initialised this a f s →
          truthy (options props ≫= gas) && truthy (options props ≫= gasLimit) = false →
          answered (trace r) = true →
          ∃ signerAddress initializer safeAddress,
            In (Obs_createProxy f (GnosisSafeContract_getAddress s) initializer 0
                  (spread_from signerAddress (options props)) (Returns safeAddress))
               (trace r)))
  ∧ (∀ x, In x (trace r) → is_default_salt_read x = true →
     safeDeploymentConfig props = None
     ∨ ∃ d, safeDeploymentConfig props = Some d ∧ saltNonce d = None).
Proof.
  deploy_paths w this props. intros tr out Hrun.
  assert (∀ x, In x tr → is_default_salt_read x = true →
               suppliedSaltNonce props = None) as Honly.
  { intros x Hin Hrd.
    destruct Hrun as [e Hv|Hv Ha|a e Hv Ha|a sg Hv Ha Hs|a sg s e Hv Ha Hs
                     |a sg s ini ts salt tail res Hv Ha Hs Hsalt Hsub];
      try (trace_cases Hin; subst x; discriminate Hrd).
    destruct Hin as [<-|[<-|Hin]]; try discriminate Hrd.
    apply in_app_or in Hin as [Hin|Hin]; [by eapply SaltRun_reads|].
    destruct Hsub as [a1 sg1 s1 ini1 e|a1 sg1 s1 ini1 n Hgd|a1 sg1 s1 ini1 n Hgd Hf
                     |a1 sg1 s1 ini1 n f created tl rs Hgd Hf Hver];
      try contradiction Hin.
    destruct Hin as [<-|Hin]; [discriminate Hrd|].
    eapply VerifyRun_no_createProxy in Hin as [_ Hrd']; [congruence|exact Hver]. }
  split.
  - intros d Hd Hzero.
    assert (suppliedSaltNonce props = Some 0) as Hsupplied.
    { unfold suppliedSaltNonce. rewrite Hd. exact Hzero. }
    split; [|split].
    + intros c master ini' salt' opts created' Hin.
      apply DeployRun_cases in Hrun
        as [[Hprep _]
           |(a & sg & s & f & ini & ts & salt & created & tail
             & Hinit & Hv & Hgd & Hsalt & Hver & ->)].
      { apply Hprep in Hin. discriminate Hin. }
      apply in_submitted_trace in Hin as [Hin|[Hin|[Hin|[Hin|Hin]]]];
        try discriminate Hin.
      * eapply SaltRun_reads in Hin as (_ & Hcp & _); [discriminate Hcp|exact Hsalt].
      * injection Hin; intros; subst.
        inversion Hsalt; subst; congruence.
      * eapply VerifyRun_no_createProxy in Hin as [Hcp _];
          [discriminate Hcp|exact Hver].
    + intros x Hin. destruct (is_default_salt_read x) eqn:Hrd; [|reflexivity].
      specialize (Honly x Hin Hrd). congruence.
    + intros a f s Hv Hinit Hgd Hans.
      destruct (DeployRun_answered _ _ _ _ _ _ _ Hrun Hv Hinit Hgd Hans)
        as (sg & ini & ts & salt & addr & tail & Hsalt & Hver & ->).
      exists sg, ini, addr.
      assert (salt = 0) as ->.
      { inversion Hsalt; subst; congruence. }
      apply submitted_trace_in. by left.
  - intros x Hin Hrd. apply suppliedSaltNonce_None. by eapply Honly.
Qed.

(** ** Construction *)

Ltac create_paths :=
  unfold_methods;
  repeat (exec_step;
          try match goal with
              | |- context [if negb ?b then _ else _] => destruct b; cbn
              end).

(** The record handed to the adapter's [getSafeContract] is the built-in
    record of [SAFE_LAST_VERSION], whatever version the factory was asked
    for; the record handed to [getSafeProxyFactoryContract] is the one of
    the requested version. *)
Lemma create_deployment_lookups w config :
  let r := exec env (create config) w in
  let requested := default SAFE_LAST_VERSION (safeVersion config) in
  let isL1 := Some (default false (isL1SafeMasterCopy config)) in
  (∀ a v chainId d x y res,
     In (Obs_getSafeContract a v chainId d x y res) (trace r) →
     v = requested
     ∧ d = getSafeContractDeployment SAFE_LAST_VERSION chainId isL1)
  ∧ (∀ a v chainId d x y res,
     In (Obs_getSafeProxyFactoryContract a v chainId d x y res) (trace r) →
     v = requested
     ∧ d = getSafeProxyFactoryContractDeployment requested chainId).
Proof.
  create_paths.
  all: split; intros ? ? ? ? ? ? ? Hin; trace_cases Hin;
       injection Hin; intros; subst; auto.
Qed.

(** C7. [create] returns a factory only after both contracts are resolved
    and found deployed: the returned object has its adapter, its proxy
    factory contract and its singleton contract assigned, these two are
    what the adapter resolved, and the code check came back true for the
    address of each.  A code check that comes back false makes [create]
    fail with the error of the contract that is missing, so that no factory
    is returned. *)
Theorem create_fully_initialised w config :
  let r := exec env (create config) w in
  (∀ this, outcome r = Returns this →
     ∃ f s v chainId d d' x x' y y',
       Initialised this (ethAdapter config) f s
       ∧ In (Obs_getSafeProxyFactoryContract (ethAdapter config) v chainId d x y
               (Returns f)) (trace r)
       ∧ In (Obs_isContractDeployed (ethAdapter config)
               (GnosisSafeProxyFactoryContract_getAddress f) (Returns true)) (trace r)
       ∧ In (Obs_getSafeContract (ethAdapter config) v chainId d' x' y'
               (Returns s)) (trace r)
       ∧ In (Obs_isContractDeployed (ethAdapter config)
               (GnosisSafeContract_getAddress s) (Returns true)) (trace r))
  ∧ (∀ a address,
       In (Obs_isContractDeployed a address (Returns false)) (trace r) →
       (outcome r = Throws ProxyFactoryNotDeployed
        ∨ outcome r = Throws SingletonNotDeployed)
       ∧ ∀ this, outcome r ≠ Returns this).
Proof.
  create_paths.
  all: split;
    [ intros this Hout; try discriminate Hout; injection Hout as <-
    | intros ? ? Hin; trace_cases Hin;
      (split; [auto|intros this; discriminate]) ].
  do 10 eexists. unfold Initialised. cbn.
  repeat split; eauto 10.
Qed.

(** ** Every run of create follows one of the paths *)

Lemma create_run w config :
  CreateRun config (trace (exec env (create config) w))
    (outcome (exec env (create config) w)).
Proof.
  create_paths; constructor.
Qed.

(** * Further properties *)

(** Name the trace and the outcome of the run of [create] in the goal and
    bring in the path it follows. *)
Ltac create_cases w config :=
  cbv zeta;
  generalize (create_run w config);
  generalize (outcome (exec env (create config) w));
  generalize (trace (exec env (create config) w)).

(** ** The object create returns *)

Lemma CreateRun_returns config tr this :
  CreateRun config tr (Returns this) →
  ∃ chainId f s,
    this = createdFactory config f s
    ∧ tr = [Obs_getChainId (ethAdapter config) (Returns chainId);
            proxyFactoryResolution config chainId (Returns f);
            Obs_isContractDeployed (ethAdapter config)
              (GnosisSafeProxyFactoryContract_getAddress f) (Returns true);
            singletonResolution config chainId (Returns s);
            Obs_isContractDeployed (ethAdapter config)
              (GnosisSafeContract_getAddress s) (Returns true)].
Proof.
  intros Hrun. inversion Hrun; subst. eauto.
Qed.

(** X1. The factory [create] returns answers [getEthAdapter] with the
    adapter of the configuration and [getSafeVersion] with the requested
    version, or with [SAFE_LAST_VERSION] when none was requested; it keeps
    the [contractNetworks] of the configuration, and its L1 flag is the
    requested one, or false. *)
Theorem create_then_getters w config this :
  outcome (exec env (create config) w) = Returns this →
  getEthAdapter this = Some (ethAdapter config)
  ∧ getSafeVersion this = Some (default SAFE_LAST_VERSION (safeVersion config))
  ∧ (safeVersion config = None → getSafeVersion this = Some SAFE_LAST_VERSION)
  ∧ _isL1SafeMasterCopy this = Some (default false (isL1SafeMasterCopy config))
  ∧ _contractNetworks this = contractNetworks config.
Proof.
  revert this. create_cases w config. intros tr out Hrun this ->.
  apply CreateRun_returns in Hrun as (chainId & f & s & -> & _).
  cbn. repeat split. by intros ->.
Qed.



(** X4. The chain id, the version and the overrides of both resolutions
    come from one place: the chain id is the one the adapter just
    answered, and the custom address and ABI are those that
    [contractNetworks] holds under that chain id, so that both are
    undefined when [contractNetworks] is missing or has no entry for the
    chain. *)
Theorem create_passes_overrides w config :
  let r := exec env (create config) w in
  (∀ a v chainId d x y res,
     In (Obs_getSafeProxyFactoryContract a v chainId d x y res) (trace r) →
     In (Obs_getChainId (ethAdapter config) (Returns chainId)) (trace r)
     ∧ a = ethAdapter config
     ∧ v = default SAFE_LAST_VERSION (safeVersion config)
     ∧ d = getSafeProxyFactoryContractDeployment v chainId
     ∧ x = safeProxyFactoryAddress <$> customContractsFor config chainId
     ∧ y = customContractsFor config chainId ≫= safeProxyFactoryAbi
     ∧ (customContractsFor config chainId = None → x = None ∧ y = None))
  ∧ (∀ a v chainId d x y res,
     In (Obs_getSafeContract a v chainId d x y res) (trace r) →
     In (Obs_getChainId (ethAdapter config) (Returns chainId)) (trace r)
     ∧ a = ethAdapter config
     ∧ v = default SAFE_LAST_VERSION (safeVersion config)
     ∧ x = safeMasterCopyAddress <$> customContractsFor config chainId
     ∧ y = customContractsFor config chainId ≫= safeMasterCopyAbi
     ∧ (customContractsFor config chainId = None → x = None ∧ y = None)).
Proof.
  create_cases w config. intros tr out Hrun.
  destruct Hrun; split; intros a v c d x y res Hin; trace_cases Hin;
    injection Hin; intros; subst; cbn;
    repeat (split; [by auto 10|]); by intros ->.
Qed.

(** X5. [create] fails in three ways only: with the failure of the call it
    made last, with the proxy-factory error after the code check of the
    resolved proxy factory answered false and before any singleton was
    resolved, or with the singleton error after the code check of the
    resolved singleton answered false. *)
Theorem create_error_taxonomy w config e :
  let r := exec env (create config) w in
  outcome r = Throws e →
  failure (trace r) = Some e
  ∨ (e = ProxyFactoryNotDeployed
     ∧ (∃ chainId f,
          In (proxyFactoryResolution config chainId (Returns f)) (trace r)
          ∧ last (trace r)
            = Some (Obs_isContractDeployed (ethAdapter config)
                      (GnosisSafeProxyFactoryContract_getAddress f) (Returns false)))
     ∧ ∀ a v chainId d x y res,
         ¬ In (Obs_getSafeContract a v chainId d x y res) (trace r))
  ∨ (e = SingletonNotDeployed
     ∧ ∃ chainId s,
         In (singletonResolution config chainId (Returns s)) (trace r)
         ∧ last (trace r)
           = Some (Obs_isContractDeployed (ethAdapter config)
                     (GnosisSafeContract_getAddress s) (Returns false))).
Proof.
  create_cases w config. intros tr out Hrun ->.
  inversion Hrun; subst; try (left; reflexivity).
  - right; left. split; [reflexivity|]. split.
    + exists chainId, f. cbn. auto.
    + intros a v c d x y res Hin. trace_cases Hin.
  - right; right. split; [reflexivity|].
    exists chainId, s. cbn. auto 10.
Qed.

(** ** What deploySafe submits *)

(** X6. A proxy creation is submitted only on an initialised factory and
    for a configuration the validator accepted; it goes to the proxy
    factory contract of the factory, names the address of the factory's
    singleton contract as master copy, and carries as initializer what
    [encode] answered, earlier in the same run, for the method "setup" and
    the parameters of the configuration. *)
Theorem deploySafe_submission_payload w this props :
  let r := exec env (deploySafe this props) w in
  ∀ c master initializer salt opts created,
    In (Obs_createProxy c master initializer salt opts created) (trace r) →
    ∃ a s,
      Initialised this a c s
      ∧ validateSafeAccountConfig (safeAccountConfig props) = Returns ()
      ∧ master = GnosisSafeContract_getAddress s
      ∧ In (Obs_encode s "setup" (setupParams (safeAccountConfig props))
              (Returns initializer)) (trace r).
Proof.
  deploy_paths w this props. intros tr out Hrun c master ini' salt' opts created' Hin.
  apply DeployRun_cases in Hrun
    as [[Hprep _]
       |(a & sg & s & f & ini & ts & salt & created & tail
         & Hinit & Hv & Hgd & Hsalt & Hver & ->)].
  { apply Hprep in Hin. discriminate Hin. }
  apply in_submitted_trace in Hin as [Hin|[Hin|[Hin|[Hin|Hin]]]]; try discriminate Hin.
  - eapply SaltRun_reads in Hin as (_ & Hcp & _); [discriminate Hcp|exact Hsalt].
  - injection Hin; intros; subst. exists a, s.
    split; [exact Hinit|]. split; [exact Hv|]. split; [reflexivity|].
    right. by left.
  - eapply VerifyRun_no_createProxy in Hin as [Hcp _]; [discriminate Hcp|exact Hver].
Qed.


Lemma SaltRun_no_submission props ts salt :
  SaltRun props ts salt →
  List.filter is_createProxy ts = [] ∧ List.filter is_Safe_create ts = [].
Proof. intros Hrun. destruct Hrun; auto. Qed.

(** X8. Nothing is retried: a run of [deploySafe] submits at most one proxy
    creation and calls [Safe.create] at most once. *)
Theorem deploySafe_single_submission w this props :
  let r := exec env (deploySafe this props) w in
  (length (List.filter is_createProxy (trace r)) ≤ 1)%nat
  ∧ (length (List.filter is_Safe_create (trace r)) ≤ 1)%nat.
Proof.
  deploy_paths w this props. intros tr out Hrun.
  apply DeployRun_cases in Hrun
    as [[Hprep _]
       |(a & sg & s & f & ini & ts & salt & created & tail
         & Hinit & Hv & Hgd & Hsalt & Hver & ->)].
  - assert (∀ p : Obs → bool,
              (∀ x, is_preparation x = true → p x = false) →
              List.filter p tr = []) as Hnone.
    { intros p Hp. induction tr as [|x tr IH]; [reflexivity|].
      cbn. rewrite (Hp x) by (apply Hprep; by left).
      apply IH. intros y Hy. apply Hprep. by right. }
    rewrite !Hnone; [cbn; lia|by intros []..].
  - destruct (SaltRun_no_submission _ _ _ Hsalt) as [Hcp Hsc].
    cbn. rewrite !List.filter_app, Hcp, Hsc. cbn.
    destruct Hver; cbn; lia.
Qed.

(** X9. [deploySafe] succeeds whenever nothing stands in its way: on an
    initialised factory, for a configuration the validator accepts and
    options that pass the gas check, a run in which every call is answered
    and no code check answers false returns the [Safe] that [Safe.create]
    answered for the address the proxy creation returned. *)
Theorem deploySafe_succeeds w this props a f s :
  validateSafeAccountConfig (safeAccountConfig props) = Returns () →
  Initialised this a f s →
  truthy (options props ≫= gas) && truthy (options props ≫= gasLimit) = false →
  let r := exec env (deploySafe this props) w in
  answered (trace r) = true →
  forallb code_found (trace r) = true →
  ∃ safe initializer salt opts safeAddress,
    outcome r = Returns safe
    ∧ In (Obs_createProxy f (GnosisSafeContract_getAddress s) initializer salt opts
            (Returns safeAddress)) (trace r)
    ∧ In (Obs_Safe_create a safeAddress (_isL1SafeMasterCopy this)
            (_contractNetworks this) (Returns safe)) (trace r).
Proof.
  intros Hv Hinit Hgd. deploy_paths w this props. intros tr out Hrun Hans Hcode.
  destruct (DeployRun_answered _ _ _ _ _ _ _ Hrun Hv Hinit Hgd Hans)
    as (sg & ini & ts & salt & addr & tail & Hsalt & Hver & ->).
  unfold answered in Hans. cbn in Hans, Hcode. rewrite forallb_app in Hans, Hcode.
  apply andb_prop in Hans as [_ Htail]. cbn in Htail.
  apply andb_prop in Hcode as [_ Hcode]. cbn in Hcode.
  inversion Hver as [|a1 addr1 e|a1 addr1|a1 addr1 res]; subst.
  - discriminate Htail.
  - discriminate Hcode.
  - destruct out as [safe|e]; [|discriminate Htail].
    exists safe, ini, salt, (spread_from sg (options props)), addr.
    split; [reflexivity|].
    split; apply submitted_trace_in; cbn; auto.
Qed.


(** ** Failures *)

Lemma failed_observe {X} (c : Call X) (r : Completion X) :
  failed (observe c r) = thrown r.
Proof. by destruct c. Qed.

(** A call that throws is the last call of the run, and its error is the
    outcome. *)
Lemma exec_fail_fast {A} (p : Prog A) w o e :
  In o (trace (exec env p w)) → failed o = Some e →
  outcome (exec env p w) = Throws e ∧ last (trace (exec env p w)) = Some o.
Proof.
  revert w. induction p as [a|e0|X c k IH]; intros w; cbn; [tauto..|].
  destruct (respond env c w) as [[x|e0] w1]; cbn.
  - intros [<-|Hin] Hfail.
    + rewrite failed_observe in Hfail. discriminate Hfail.
    + destruct (IH x w1 Hin Hfail) as [Hout Hlast]. split; [exact Hout|].
      destruct (trace (exec env (k x) w1)); [contradiction Hin|exact Hlast].
  - intros [<-|[]] Hfail. rewrite failed_observe in Hfail.
    injection Hfail as <-. auto.
Qed.


Lemma last_submitted (o1 o2 o3 x : Obs) ts tail :
  last tail = Some x → last (o1 :: o2 :: ts ++ o3 :: tail) = Some x.
Proof.
  intros Hlast.
  change (o1 :: o2 :: ts ++ o3 :: tail) with ((o1 :: o2 :: ts) ++ o3 :: tail).
  by rewrite last_app, last_cons, Hlast.
Qed.

(** X12. On an initialised factory [deploySafe] fails in four ways only:
    with the error of the validator, with the failure of the call it made
    last, with the conflict error when both gas fields are truthy, or with
    the verification error after the code check of the address the proxy
    creation returned answered false. *)
Theorem deploySafe_error_taxonomy w this props a f s e :
  Initialised this a f s →
  let r := exec env (deploySafe this props) w in
  outcome r = Throws e →
  (validateSafeAccountConfig (safeAccountConfig props) = Throws e ∧ trace r = [])
  ∨ failure (trace r) = Some e
  ∨ (e = ConflictingGasOptions
     ∧ truthy (options props ≫= gas) = true
     ∧ truthy (options props ≫= gasLimit) = true)
  ∨ (e = DeploymentVerificationFailed
     ∧ ∃ c master initializer salt opts safeAddress,
         In (Obs_createProxy c master initializer salt opts (Returns safeAddress))
            (trace r)
         ∧ last (trace r)
           = Some (Obs_isContractDeployed a safeAddress (Returns false))).
Proof.
  intros (Ha & Hf & Hs). deploy_paths w this props. intros tr out Hrun ->.
  inversion Hrun as [e' Hv|Hv Ha'|a' e' Hv Ha'|a' sg Hv Ha' Hs'|a' sg s' e' Hv Ha' Hs'
                    |a' sg s' ini ts salt tail res Hv Ha' Hs' Hsalt Hsub];
    subst; try congruence.
  - left. auto.
  - right; left. reflexivity.
  - right; left. reflexivity.
  - inversion Hsub as [a1 sg1 s1 ini1 e'|a1 sg1 s1 ini1 n Hgd|a1 sg1 s1 ini1 n Hgd Hf'
                      |a1 sg1 s1 ini1 n f' created tl rs Hgd Hf' Hver];
      subst; try congruence.
    + right; left. rewrite app_nil_r. by eapply SaltRun_failure.
    + right; right; left. split; [reflexivity|]. by apply andb_prop.
    + rewrite failure_submitted by discriminate.
      assert (a' = a) as -> by congruence.
      inversion Hver as [a2 e'|a2 addr e'|a2 addr|a2 addr rs']; subst.
      * right; left. reflexivity.
      * right; left. reflexivity.
      * right; right; right. split; [reflexivity|].
        exists f', (GnosisSafeContract_getAddress s'), ini, n,
          (spread_from sg (options props)), addr.
        split; [apply submitted_trace_in; by left|].
        by apply last_submitted.
      * right; left. reflexivity.
Qed.


(** ** The default salt *)


(** ** Defaults of the setup payload *)

Lemma setupParams_withDefaults c : setupParams (withDefaults c) = setupParams c.
Proof. reflexivity. Qed.

(** X14. Leaving an optional field out and passing its neutral value are
    the same to [encodeSetupCallData]: a configuration and the one with all
    defaults written out give the same call, and two configurations are
    encoded with the same parameters exactly when they agree once the
    defaults are written out. *)
Theorem encodeSetupCallData_withDefaults this c :
  encodeSetupCallData this (withDefaults c) = encodeSetupCallData this c
  ∧ ∀ c', setupParams c = setupParams c' ↔ withDefaults c = withDefaults c'.
Proof.
  split; [reflexivity|]. intros c'. split.
  - unfold setupParams, withDefaults. intros Heq.
    injection Heq as -> -> -> -> -> -> -> ->. reflexivity.
  - intros Heq.
    rewrite <- (setupParams_withDefaults c), <- (setupParams_withDefaults c').
    by rewrite Heq.
Qed.

(** ** Construction, then deployment *)

(** X15. Through a factory that [create] returned, [deploySafe] talks to
    what [create] set up: the proxy creation goes to the proxy factory
    contract, and names the singleton contract, that were resolved and
    found deployed during [create], and [Safe.create] receives the adapter
    and the [contractNetworks] of the factory configuration and its L1
    flag, false when the configuration has none. *)
Theorem create_then_deploySafe w0 w config this props :
  outcome (exec env (create config) w0) = Returns this →
  let built := exec env (create config) w0 in
  let r := exec env (deploySafe this props) w in
  (∀ c master initializer salt opts created,
     In (Obs_createProxy c master initializer salt opts created) (trace r) →
     ∃ chainId s,
       master = GnosisSafeContract_getAddress s
       ∧ In (proxyFactoryResolution config chainId (Returns c)) (trace built)
       ∧ In (Obs_isContractDeployed (ethAdapter config)
               (GnosisSafeProxyFactoryContract_getAddress c) (Returns true))
            (trace built)
       ∧ In (singletonResolution config chainId (Returns s)) (trace built)
       ∧ In (Obs_isContractDeployed (ethAdapter config)
               (GnosisSafeContract_getAddress s) (Returns true)) (trace built))
  ∧ (∀ a safeAddress isL1 networks res,
       In (Obs_Safe_create a safeAddress isL1 networks res) (trace r) →
       a = ethAdapter config
       ∧ isL1 = Some (default false (isL1SafeMasterCopy config))
       ∧ networks = contractNetworks config).
Proof.
  revert this. create_cases w0 config. intros trc outc Hcreate this ->.
  apply CreateRun_returns in Hcreate as (chainId & f & s & -> & ->).
  deploy_paths w (createdFactory config f s) props. intros tr out Hrun.
  apply DeployRun_cases in Hrun
    as [[Hprep _]
       |(a & sg & s' & f' & ini & ts & salt & created & tail
         & (Ha & Hf & Hs) & Hv & Hgd & Hsalt & Hver & ->)].
  { split; intros; match goal with H : In _ tr |- _ => apply Hprep in H; discriminate H end. }
  cbn in Ha, Hf, Hs.
  injection Ha as <-. injection Hf as <-. injection Hs as <-.
  split.
  - intros c master ini' salt' opts created' Hin.
    apply in_submitted_trace in Hin as [Hin|[Hin|[Hin|[Hin|Hin]]]];
      try discriminate Hin.
    + eapply SaltRun_reads in Hin as (_ & Hcp & _); [discriminate Hcp|exact Hsalt].
    + injection Hin; intros; subst. exists chainId, s. cbn. auto 10.
    + eapply VerifyRun_no_createProxy in Hin as [Hcp _];
        [discriminate Hcp|exact Hver].
  - intros a' addr l n res Hin.
    apply in_submitted_trace in Hin as [Hin|[Hin|[Hin|[Hin|Hin]]]];
      try discriminate Hin.
    + eapply SaltRun_reads in Hin as (_ & _ & Hsc & _); [discriminate Hsc|exact Hsalt].
    + destruct Hver; cbn in Hin; trace_cases Hin.
      injection Hin; intros; subst. auto.
Qed.

(** X16. The deployment path resolves nothing: a run of [deploySafe] never
    asks for the chain id and never resolves a contract; it makes at most
    one code check, and every code check is on the address the proxy
    creation returned. *)
Theorem deploySafe_resolves_nothing w this props :
  let r := exec env (deploySafe this props) w in
  (∀ a res, ¬ In (Obs_getChainId a res) (trace r))
  ∧ (∀ a v chainId d x y res, ¬ In (Obs_getSafeContract a v chainId d x y res) (trace r))
  ∧ (∀ a v chainId d x y res,
       ¬ In (Obs_getSafeProxyFactoryContract a v chainId d x y res) (trace r))
  ∧ (∀ a address res,
       In (Obs_isContractDeployed a address res) (trace r) →
       (∃ c master initializer salt opts,
          In (Obs_createProxy c master initializer salt opts (Returns address))
             (trace r))
       ∧ List.filter is_resolution_call (trace r)
         = [Obs_isContractDeployed a address res]).
Proof.
  deploy_paths w this props. intros tr out Hrun.
  apply DeployRun_cases in Hrun
    as [[Hprep _]
       |(a & sg & s & f & ini & ts & salt & created & tail
         & Hinit & Hv & Hgd & Hsalt & Hver & ->)].
  { unfold not. repeat split; intros;
      match goal with H : In _ tr |- _ => apply Hprep in H; discriminate H end. }
  assert (List.filter is_resolution_call ts = []) as Hts.
  { destruct Hsalt; reflexivity. }
  split; [|split; [|split]].
  - intros a' res Hin.
    apply in_submitted_trace in Hin as [Hin|[Hin|[Hin|[Hin|Hin]]]];
      try discriminate Hin.
    + eapply SaltRun_reads in Hin as (Hf & _); [discriminate Hf|exact Hsalt].
    + destruct Hver; cbn in Hin; trace_cases Hin.
  - intros a' v c d x y res Hin.
    apply in_submitted_trace in Hin as [Hin|[Hin|[Hin|[Hin|Hin]]]];
      try discriminate Hin.
    + eapply SaltRun_reads in Hin as (Hf & _); [discriminate Hf|exact Hsalt].
    + destruct Hver; cbn in Hin; trace_cases Hin.
  - intros a' v c d x y res Hin.
    apply in_submitted_trace in Hin as [Hin|[Hin|[Hin|[Hin|Hin]]]];
      try discriminate Hin.
    + eapply SaltRun_reads in Hin as (Hf & _); [discriminate Hf|exact Hsalt].
    + destruct Hver; cbn in Hin; trace_cases Hin.
  - intros a' addr res Hin.
    apply in_submitted_trace in Hin as [Hin|[Hin|[Hin|[Hin|Hin]]]];
      try discriminate Hin.
    + eapply SaltRun_reads in Hin as (Hf & _); [discriminate Hf|exact Hsalt].
    + cbn. rewrite List.filter_app, Hts. cbn.
      destruct Hver; cbn in Hin; trace_cases Hin;
        injection Hin; intros; subst;
        (split; [do 5 eexists; apply submitted_trace_in; by left|reflexivity]).
Qed.

End Properties.

(** * Runs on the Rinkeby setting *)

Module RinkebyRuns.
Import Rinkeby.

Example validate_twoOwners : validateSafeAccountConfig twoOwners = Returns ().
Proof. reflexivity. Qed.

Example create_returns_factory :
  outcome (exec (node true true) (create (factoryConfig None)) deployedContracts)
  = Returns factory.
Proof. reflexivity. Qed.

(** The end-to-end example of the specification: salt 42, owners A and B,
    threshold 2. *)
Example deploySafe_end_to_end :
  let r := exec (node true true)
             (deploySafe factory (deployProps twoOwners (Some 42) None))
             deployedContracts in
  outcome r = Returns proxy
  ∧ trace r =
    [ Obs_getSignerAddress "web3" (Returns signer);
      Obs_encode "0x3E5c63644E683549055b9Be8653de26E0B4CD36E" "setup"
        [ ArgAddresses [ownerA; ownerB]; ArgNumber 2;
          ArgString "0x0000000000000000000000000000000000000000";
          ArgString "0x";
          ArgString "0x0000000000000000000000000000000000000000";
          ArgString "0x0000000000000000000000000000000000000000";
          ArgNumber 0;
          ArgString "0x0000000000000000000000000000000000000000" ]
        (Returns "0xsetup");
      Obs_createProxy "0xa6B71E26C5e0845f74c812102Ca7114b6a896AB2"
        "0x3E5c63644E683549055b9Be8653de26E0B4CD36E" "0xsetup" 42
        {| from := Some signer; gas := None; gasLimit := None; gasPrice := None |}
        (Returns proxy);
      Obs_isContractDeployed "web3" proxy (Returns true);
      Obs_Safe_create "web3" proxy (Some false) None (Returns proxy) ].
Proof. split; reflexivity. Qed.

(** C1. Asked for version 1.1.1, [create] resolves the proxy factory from
    the built-in record of 1.1.1, but hands the adapter's [getSafeContract]
    the record of 1.3.0, the last version, next to the version string
    1.1.1; the two records differ, and the factory returned is bound to the
    singleton of 1.3.0. *)
Theorem singleton_lookup_ignores_requested_version :
  let r := exec (node true true) (create (factoryConfig (Some "1.1.1")))
             deployedContracts in
  trace r =
    [ Obs_getChainId "web3" (Returns 4);
      Obs_getSafeProxyFactoryContract "web3" "1.1.1" 4
        (getSafeProxyFactoryContractDeployment "1.1.1" 4) None None
        (Returns "0x76E2cFc1F5Fa8F6a5b3fC4c8F4788F0116861F9B");
      Obs_isContractDeployed "web3" "0x76E2cFc1F5Fa8F6a5b3fC4c8F4788F0116861F9B"
        (Returns true);
      Obs_getSafeContract "web3" "1.1.1" 4
        (getSafeContractDeployment "1.3.0" 4 (Some false)) None None
        (Returns "0x3E5c63644E683549055b9Be8653de26E0B4CD36E");
      Obs_isContractDeployed "web3" "0x3E5c63644E683549055b9Be8653de26E0B4CD36E"
        (Returns true) ]
  ∧ getSafeContractDeployment "1.3.0" 4 (Some false)
    ≠ getSafeContractDeployment "1.1.1" 4 (Some false)
  ∧ ∃ this, outcome r = Returns this
      ∧ _safeVersion this = Some "1.1.1"
      ∧ _gnosisSafeContract this = Some "0x3E5c63644E683549055b9Be8653de26E0B4CD36E".
Proof.
  cbv zeta. split; [reflexivity|]. split; [discriminate|].
  eexists. split; [reflexivity|]. split; reflexivity.
Qed.

(** C8. The error [create] raises when the singleton has no code and the
    error [deploySafe] raises when the new proxy has no code are one and
    the same error; only the error for a missing proxy factory differs
    from them. *)
Theorem singleton_and_verification_errors_coincide :
  ∃ e,
    outcome (exec (node true true) (create (factoryConfig None)) onlyProxyFactory)
    = Throws e
    ∧ outcome (exec (node true false)
                 (deploySafe factory (deployProps twoOwners (Some 42) None))
                 deployedContracts)
      = Throws e
    ∧ outcome (exec (node true true) (create (factoryConfig None)) [])
      ≠ Throws e.
Proof.
  exists (Error_ "Safe Proxy contract is not deployed in the current network").
  split; [reflexivity|]. split; [reflexivity|]. discriminate.
Qed.

(** C2, as stated, fails.  With [gas] set to 0 next to a gas limit the run
    passes the check, submits the proxy creation and returns a [Safe]; with
    both fields truthy but too few owners the run fails with the
    invalid-configuration error; with both fields truthy but a node that
    does not answer the signer query the run fails with the node's
    error. *)
Lemma conflicting_gas_not_always_raised :
  (gas zeroGas = Some (GasNumber 0) ∧ gasLimit zeroGas = Some (GasNumber 21000)
   ∧ let r := exec (node true true)
                (deploySafe factory (deployProps twoOwners (Some 42) (Some zeroGas)))
                deployedContracts in
     outcome r = Returns proxy
     ∧ In (Obs_createProxy "0xa6B71E26C5e0845f74c812102Ca7114b6a896AB2"
             "0x3E5c63644E683549055b9Be8653de26E0B4CD36E" "0xsetup" 42
             {| from := Some signer; gas := Some (GasNumber 0);
                gasLimit := Some (GasNumber 21000); gasPrice := None |}
             (Returns proxy)) (trace r))
  ∧ (truthy (gas bothGasFields) = true ∧ truthy (gasLimit bothGasFields) = true
     ∧ outcome (exec (node true true)
                  (deploySafe factory
                     (deployProps tooFewOwners (Some 42) (Some bothGasFields)))
                  deployedContracts)
       = Throws InvalidConfiguration
     ∧ InvalidConfiguration ≠ ConflictingGasOptions)
  ∧ (outcome (exec (node false true)
                (deploySafe factory
                   (deployProps twoOwners (Some 42) (Some bothGasFields)))
                deployedContracts)
     = Throws (Error_ "network down")
     ∧ Error_ "network down" ≠ ConflictingGasOptions).
Proof.
  split; [|split].
  - split; [reflexivity|]. split; [reflexivity|]. cbv zeta.
    split; [reflexivity|]. right; right; left. reflexivity.
  - split; [reflexivity|]. split; [reflexivity|]. split; [reflexivity|discriminate].
  - split; [reflexivity|discriminate].
Qed.

(** ** Instances of the general properties *)

Lemma deploySafe_conflicting_gas_witness :
  let r := exec (node true true)
             (deploySafe factory (deployProps twoOwners (Some 42) (Some bothGasFields)))
             deployedContracts in
  (∀ x, In x (trace r) → is_createProxy x = false)
  ∧ outcome r = Throws ConflictingGasOptions.
Proof.
  cbv zeta.
  destruct (deploySafe_conflicting_gas (node true true) deployedContracts factory
              (deployProps twoOwners (Some 42) (Some bothGasFields)) bothGasFields
              eq_refl eq_refl eq_refl) as [Hnone Hfails].
  split; [exact Hnone|].
  apply (Hfails "web3" "0xa6B71E26C5e0845f74c812102Ca7114b6a896AB2"
           "0x3E5c63644E683549055b9Be8653de26E0B4CD36E").
  - reflexivity.
  - repeat split.
  - reflexivity.
Defined.

Lemma deploySafe_rejects_invalid_config_witness :
  let r := exec (node true true)
             (deploySafe factory (deployProps tooFewOwners (Some 42) None))
             deployedContracts in
  outcome r = Throws InvalidConfiguration ∧ trace r = []
  ∧ final r = deployedContracts.
Proof.
  apply (deploySafe_rejects_invalid_config (node true true) deployedContracts factory
           (deployProps tooFewOwners (Some 42) None)).
  right; right; right; right. cbn. lia.
Defined.

Lemma deploySafe_verifies_code_witness :
  let r := exec (node true false)
             (deploySafe factory (deployProps twoOwners (Some 42) None))
             deployedContracts in
  outcome r = Throws DeploymentVerificationFailed
  ∧ ∀ x, In x (trace r) → is_Safe_create x = false.
Proof.
  cbv zeta.
  apply (proj1 (proj2 (deploySafe_verifies_code (node true false) deployedContracts
                         factory (deployProps twoOwners (Some 42) None)))
           "web3" proxy).
  right; right; right; left. reflexivity.
Defined.

Lemma encodeSetupCallData_payload_witness :
  let r := exec (node true true) (encodeSetupCallData factory twoOwners)
             deployedContracts in
  length (setup_fields twoOwners) = 8%nat
  ∧ ∃ res,
      trace r = [Obs_encode "0x3E5c63644E683549055b9Be8653de26E0B4CD36E" "setup"
                   (setup_fields twoOwners) res]
      ∧ outcome r = res.
Proof.
  apply (encodeSetupCallData_payload (node true true) deployedContracts factory
           "0x3E5c63644E683549055b9Be8653de26E0B4CD36E" twoOwners).
  reflexivity.
Defined.


Lemma create_fully_initialised_witness :
  let r := exec (node true true) (create (factoryConfig None)) deployedContracts in
  ∃ f s v chainId d d' x x' y y',
    Initialised factory "web3" f s
    ∧ In (Obs_getSafeProxyFactoryContract "web3" v chainId d x y (Returns f)) (trace r)
    ∧ In (Obs_isContractDeployed "web3" f (Returns true)) (trace r)
    ∧ In (Obs_getSafeContract "web3" v chainId d' x' y' (Returns s)) (trace r)
    ∧ In (Obs_isContractDeployed "web3" s (Returns true)) (trace r).
Proof.
  cbv zeta.
  apply (proj1 (create_fully_initialised (node true true) deployedContracts
                  (factoryConfig None)) factory).
  reflexivity.
Defined.

Lemma deploySafe_zero_salt_honoured_witness :
  let r := exec (node true true)
             (deploySafe factory (deployProps twoOwners (Some 0) None))
             deployedContracts in
  ∃ signerAddress initializer safeAddress,
    In (Obs_createProxy "0xa6B71E26C5e0845f74c812102Ca7114b6a896AB2"
          "0x3E5c63644E683549055b9Be8653de26E0B4CD36E" initializer 0
          (spread_from signerAddress None) (Returns safeAddress)) (trace r).
Proof.
  cbv zeta.
  apply (proj2 (proj2 (proj1 (deploySafe_zero_salt_honoured (node true true)
                                deployedContracts factory
                                (deployProps twoOwners (Some 0) None))
                         {| saltNonce := Some 0 |} eq_refl eq_refl))
           "web3" "0xa6B71E26C5e0845f74c812102Ca7114b6a896AB2"
           "0x3E5c63644E683549055b9Be8653de26E0B4CD36E").
  - reflexivity.
  - repeat split.
  - reflexivity.
  - reflexivity.
Defined.

Lemma deploySafe_gas_check_truthiness_witness :
  let r := exec (node true true)
             (deploySafe factory (deployProps twoOwners (Some 42) (Some zeroGas)))
             deployedContracts in
  (∃ e, failure (trace r) = Some e ∧ outcome r = Throws e
        ∧ ∀ x, In x (trace r) → is_createProxy x = false)
  ∨ (∃ signerAddress initializer salt created,
       In (Obs_createProxy "0xa6B71E26C5e0845f74c812102Ca7114b6a896AB2"
             "0x3E5c63644E683549055b9Be8653de26E0B4CD36E" initializer salt
             (spread_from signerAddress (Some zeroGas)) created) (trace r)
       ∧ gas (spread_from signerAddress (Some zeroGas)) = Some (GasNumber 0)
       ∧ gasLimit (spread_from signerAddress (Some zeroGas)) = Some (GasNumber 21000)).
Proof.
  cbv zeta.
  apply (proj2 (deploySafe_gas_check_truthiness (node true true) deployedContracts
                  factory (deployProps twoOwners (Some 42) (Some zeroGas)))
           zeroGas "web3" "0xa6B71E26C5e0845f74c812102Ca7114b6a896AB2"
           "0x3E5c63644E683549055b9Be8653de26E0B4CD36E").
  - reflexivity.
  - repeat split.
  - reflexivity.
  - reflexivity.
Defined.

(** ** Instances of the further properties *)

Lemma create_then_getters_witness :
  getEthAdapter factory = Some "web3"
  ∧ getSafeVersion factory = Some "1.3.0"
  ∧ (safeVersion (factoryConfig None) = None → getSafeVersion factory = Some "1.3.0")
  ∧ _isL1SafeMasterCopy factory = Some false
  ∧ _contractNetworks factory = None.
Proof.
  apply (create_then_getters (node true true) deployedContracts (factoryConfig None)
           factory).
  reflexivity.
Defined.



Lemma create_passes_overrides_witness :
  let r := exec (node true true) (create customFactoryConfig) customDeployed in
  In (Obs_getChainId "web3" (Returns 4)) (trace r)
  ∧ "web3" = ethAdapter customFactoryConfig
  ∧ "1.2.0" = default "1.3.0" (safeVersion customFactoryConfig)
  ∧ getSafeProxyFactoryContractDeployment "1.2.0" 4
    = getSafeProxyFactoryContractDeployment "1.2.0" 4
  ∧ Some "0xFAFAFAFAFAFAFAFAFAFAFAFAFAFAFAFAFAFAFAFA"
    = safeProxyFactoryAddress <$> customContractsFor customFactoryConfig 4
  ∧ None = customContractsFor customFactoryConfig 4 ≫= safeProxyFactoryAbi
  ∧ (customContractsFor customFactoryConfig 4 = None →
     Some "0xFAFAFAFAFAFAFAFAFAFAFAFAFAFAFAFAFAFAFAFA" = None
     ∧ @None (list AbiItem) = None).
Proof.
  cbv zeta.
  apply (proj1 (create_passes_overrides (node true true) customDeployed
                  customFactoryConfig)
           "web3" "1.2.0" 4 (getSafeProxyFactoryContractDeployment "1.2.0" 4)
           (Some "0xFAFAFAFAFAFAFAFAFAFAFAFAFAFAFAFAFAFAFAFA") None
           (Returns "0xFAFAFAFAFAFAFAFAFAFAFAFAFAFAFAFAFAFAFAFA")).
  right; left. reflexivity.
Defined.

Lemma create_error_taxonomy_witness :
  let r := exec (node true true) (create (factoryConfig None)) onlyProxyFactory in
  failure (trace r) = Some SingletonNotDeployed
  ∨ (SingletonNotDeployed = ProxyFactoryNotDeployed
     ∧ (∃ chainId f,
          In (proxyFactoryResolution (factoryConfig None) chainId (Returns f)) (trace r)
          ∧ last (trace r) = Some (Obs_isContractDeployed "web3" f (Returns false)))
     ∧ ∀ a v chainId d x y res,
         ¬ In (Obs_getSafeContract a v chainId d x y res) (trace r))
  ∨ (SingletonNotDeployed = SingletonNotDeployed
     ∧ ∃ chainId s,
         In (singletonResolution (factoryConfig None) chainId (Returns s)) (trace r)
         ∧ last (trace r) = Some (Obs_isContractDeployed "web3" s (Returns false))).
Proof.
  apply (create_error_taxonomy (node true true) onlyProxyFactory (factoryConfig None)
           SingletonNotDeployed).
  reflexivity.
Defined.

Lemma deploySafe_submission_payload_witness :
  let r := exec (node true true)
             (deploySafe factory (deployProps twoOwners (Some 42) None))
             deployedContracts in
  ∃ a s,
    Initialised factory a "0xa6B71E26C5e0845f74c812102Ca7114b6a896AB2" s
    ∧ validateSafeAccountConfig twoOwners = Returns ()
    ∧ "0x3E5c63644E683549055b9Be8653de26E0B4CD36E" = s
    ∧ In (Obs_encode s "setup" (setupParams twoOwners) (Returns "0xsetup")) (trace r).
Proof.
  cbv zeta.
  apply (deploySafe_submission_payload (node true true) deployedContracts factory
           (deployProps twoOwners (Some 42) None)
           "0xa6B71E26C5e0845f74c812102Ca7114b6a896AB2"
           "0x3E5c63644E683549055b9Be8653de26E0B4CD36E" "0xsetup" 42
           {| from := Some signer; gas := None; gasLimit := None; gasPrice := None |}
           (Returns proxy)).
  right; right; left. reflexivity.
Defined.


Lemma deploySafe_succeeds_witness :
  let r := exec (node true true)
             (deploySafe factory (deployProps twoOwners (Some 42) None))
             deployedContracts in
  ∃ safe initializer salt opts safeAddress,
    outcome r = Returns safe
    ∧ In (Obs_createProxy "0xa6B71E26C5e0845f74c812102Ca7114b6a896AB2"
            "0x3E5c63644E683549055b9Be8653de26E0B4CD36E" initializer salt opts
            (Returns safeAddress)) (trace r)
    ∧ In (Obs_Safe_create "web3" safeAddress (Some false) None (Returns safe))
         (trace r).
Proof.
  cbv zeta.
  apply (deploySafe_succeeds (node true true) deployedContracts factory
           (deployProps twoOwners (Some 42) None) "web3"
           "0xa6B71E26C5e0845f74c812102Ca7114b6a896AB2"
           "0x3E5c63644E683549055b9Be8653de26E0B4CD36E").
  - reflexivity.
  - repeat split.
  - reflexivity.
  - reflexivity.
  - reflexivity.
Defined.



Lemma deploySafe_error_taxonomy_witness :
  let r := exec (node true false)
             (deploySafe factory (deployProps twoOwners (Some 42) None))
             deployedContracts in
  (validateSafeAccountConfig twoOwners = Throws DeploymentVerificationFailed
   ∧ trace r = [])
  ∨ failure (trace r) = Some DeploymentVerificationFailed
  ∨ (DeploymentVerificationFailed = ConflictingGasOptions
     ∧ truthy (@None TransactionOptions ≫= gas) = true
     ∧ truthy (@None TransactionOptions ≫= gasLimit) = true)
  ∨ (DeploymentVerificationFailed = DeploymentVerificationFailed
     ∧ ∃ c master initializer salt opts safeAddress,
         In (Obs_createProxy c master initializer salt opts (Returns safeAddress))
            (trace r)
         ∧ last (trace r)
           = Some (Obs_isContractDeployed "web3" safeAddress (Returns false))).
Proof.
  cbv zeta.
  apply (deploySafe_error_taxonomy (node true false) deployedContracts factory
           (deployProps twoOwners (Some 42) None) "web3"
           "0xa6B71E26C5e0845f74c812102Ca7114b6a896AB2"
           "0x3E5c63644E683549055b9Be8653de26E0B4CD36E"
           DeploymentVerificationFailed).
  - repeat split.
  - reflexivity.
Defined.


Lemma create_then_deploySafe_witness :
  let built := exec (node true true) (create (factoryConfig None)) deployedContracts in
  ∃ chainId s,
    "0x3E5c63644E683549055b9Be8653de26E0B4CD36E" = s
    ∧ In (proxyFactoryResolution (factoryConfig None) chainId
            (Returns "0xa6B71E26C5e0845f74c812102Ca7114b6a896AB2")) (trace built)
    ∧ In (Obs_isContractDeployed "web3" "0xa6B71E26C5e0845f74c812102Ca7114b6a896AB2"
            (Returns true)) (trace built)
    ∧ In (singletonResolution (factoryConfig None) chainId (Returns s)) (trace built)
    ∧ In (Obs_isContractDeployed "web3" s (Returns true)) (trace built).
Proof.
  cbv zeta.
  apply (proj1 (create_then_deploySafe (node true true) deployedContracts
                  deployedContracts (factoryConfig None) factory
                  (deployProps twoOwners (Some 42) None) eq_refl)
           "0xa6B71E26C5e0845f74c812102Ca7114b6a896AB2"
           "0x3E5c63644E683549055b9Be8653de26E0B4CD36E" "0xsetup" 42
           {| from := Some signer; gas := None; gasLimit := None; gasPrice := None |}
           (Returns proxy)).
  right; right; left. reflexivity.
Defined.

Lemma deploySafe_resolves_nothing_witness :
  let r := exec (node true true)
             (deploySafe factory (deployProps twoOwners (Some 42) None))
             deployedContracts in
  (∃ c master initializer salt opts,
     In (Obs_createProxy c master initializer salt opts (Returns proxy)) (trace r))
  ∧ List.filter is_resolution_call (trace r)
    = [Obs_isContractDeployed "web3" proxy (Returns true)].
Proof.
  cbv zeta.
  apply (proj2 (proj2 (proj2 (deploySafe_resolves_nothing (node true true)
                                deployedContracts factory
                                (deployProps twoOwners (Some 42) None))))
           "web3" proxy (Returns true)).
  right; right; right; left. reflexivity.
Defined.

End RinkebyRuns.
